(** * Hostenly guest message pipeline: a shallow embedding

    The development follows the server sources:
    - [twilio.js]  (class TwilioService): the inbound pipeline
      [processIncomingMessage], the dispatchers [sendMessage] and
      [sendWhatsAppMessage], and [sendManualMessage];
    - [ai-assistant.js] (class AIAssistant): [processMessage] and
      [createSystemPrompt];
    - [vector-database.js] (class VectorDatabase): [searchSimilar];
    - [openai.js] (class OpenAIEmbeddings): [generateEmbedding];
    - [webhook.js]: the route [POST /twilio];
    - [conversation.js]: the route [POST /:id/messages].

    Asynchronous functions are values of a small resumption type [Prog]:
    every [await] of the source on a store or provider call is one
    [Await] node, so the same definition can be run to completion
    ([run]) or interleaved with another task at its suspension points
    ([interleave]).  Thrown exceptions are results ([Thrown]); the
    store keeps whatever was written before the exception, as in the
    source, which uses no transaction.

    [twilio.js] binds [aiAssistant] with [new (require('./ai-assistant'))()]
    while [ai-assistant.js] exports the object [{ AIAssistant }]; the
    embedding takes [aiAssistant] to be an instance of the class
    [AIAssistant], which is what the calls on it assume. *)

From Stdlib Require Import String Ascii List ZArith QArith Lia Bool.
From stdpp Require Import base option gmap strings list.
Import ListNotations.

Local Open Scope string_scope.
Local Open Scope list_scope.

(** ** JavaScript strings *)

Module Js.

Definition nl : string := String (ascii_of_nat 10) EmptyString.
Definition dq : string := String (ascii_of_nat 34) EmptyString.

(** [s.substring(n)] *)
Fixpoint drop (n : nat) (s : string) : string :=
  match n, s with
  | O, _ => s
  | S n', String _ s' => drop n' s'
  | S _, EmptyString => EmptyString
  end.

(** [s.startsWith(p)] *)
Definition startsWith (s p : string) : bool := String.prefix p s.

(** [s.replace(pat, rep)] with a string pattern: only the first
    occurrence, wherever it is, is replaced. *)
Fixpoint replace (pat rep s : string) : string :=
  if String.prefix pat s then rep +:+ drop (String.length pat) s
  else match s with
       | EmptyString => EmptyString
       | String c s' => String c (replace pat rep s')
       end.

(** White space removed by [trim]: TAB, LF, VT, FF, CR and SPACE
    (the code units below 128 that ECMAScript counts as white space
    or line terminators). *)
Definition is_ws (c : ascii) : bool :=
  let n := nat_of_ascii c in
  ((9 <=? n)%nat && (n <=? 13)%nat) || (n =? 32)%nat.

Fixpoint trimStart (s : string) : string :=
  match s with
  | String c s' => if is_ws c then trimStart s' else s
  | EmptyString => EmptyString
  end.

(** [trimEnd] keeps a character when it is not white space or when
    something remains after it. *)
Fixpoint trimEnd (s : string) : string :=
  match s with
  | EmptyString => EmptyString
  | String c s' =>
      match trimEnd s' with
      | EmptyString => if is_ws c then EmptyString else String c EmptyString
      | t => String c t
      end
  end.

Definition trim (s : string) : string := trimEnd (trimStart s).

(** [arr.join(sep)] *)
Fixpoint join (sep : string) (l : list string) : string :=
  match l with
  | [] => EmptyString
  | [x] => x
  | x :: rest => x +:+ sep +:+ join sep rest
  end.

(** [s.includes(p)] *)
Fixpoint includes (s p : string) : bool :=
  if String.prefix p s then true
  else match s with
       | EmptyString => false
       | String _ s' => includes s' p
       end.

(** Truthiness of a value that is a string, [null] or [undefined]. *)
Definition truthy (v : option string) : bool :=
  match v with
  | Some s => negb (String.eqb s EmptyString)
  | None => false
  end.

(** [v || d] for such a value. *)
Definition or_else (v : option string) (d : string) : string :=
  match v with
  | Some s => if String.eqb s EmptyString then d else s
  | None => d
  end.

End Js.

(** ** Data model (the rows the services read and write) *)

(** Record identifiers are opaque keys generated by the store; they are
    numbered here. *)
Definition Id := nat.

Record User := mkUser {
  u_id : Id;
  messageCount : Z;
  messageLimit : Z
}.

(** The optional fields of [propertyDetailsSchema] ([property.js]). *)
Record PropertyDetails := mkDetails {
  checkInTime : option string;
  checkOutTime : option string;
  wifiPassword : option string;
  houseRules : option string;
  location : option string;
  nearbyAttractions : option string;
  emergencyContacts : option string;
  faqs : option (list (string * string));
  customNotes : option string
}.

(** A property row; [propertyDetails] is the related row that
    [include: { propertyDetails: true }] attaches ([None] is [null]). *)
Record Property := mkProperty {
  p_id : Id;
  name : string;
  phoneNumber : string;
  userId : Id;
  propertyDetails : option PropertyDetails
}.

Record Conversation := mkConversation {
  c_id : Id;
  propertyId : Id;
  guestPhoneNumber : string;
  guestName : string;
  updatedAt : nat
}.

Record Message := mkMessage {
  m_id : Id;
  conversationId : Id;
  content : string;
  isFromGuest : bool
}.

(** The relational store.  [users] is keyed by the primary key; the
    other tables are kept in creation order, which is also the order of
    [createdAt]. *)
Record DB := mkDB {
  users : gmap nat User;
  properties : list Property;
  conversations : list Conversation;
  messages : list Message;
  nextId : Id
}.

(** A message accepted by the channel provider. *)
Record Sms := mkSms {
  sms_from : string;
  sms_to : string;
  sms_body : string
}.

Record World := mkWorld {
  db : DB;
  outbox : list Sms;
  now : nat
}.

(** ** Exceptions and results *)

Inductive Exn :=
| JsError (message : string)       (* [new Error(message)] *)
| TypeError (message : string)     (* property access on [null] *)
| SyntaxError (message : string)   (* [JSON.parse] *)
| PrismaError (code : string)      (* a rejected store call *)
| ProviderError (message : string) (* a rejected provider call *).

Inductive Res (A : Type) :=
| Ok (a : A)
| Thrown (e : Exn).
Arguments Ok {A} a.
Arguments Thrown {A} e.

(** An awaited call: one atomic action on the world. *)
Definition Action (X : Type) := World -> Res X * World.

(** ** Asynchronous programs *)

Inductive Prog (A : Type) : Type :=
| Ret (a : A)
| Throw (e : Exn)
| Await (X : Type) (op : Action X) (k : X -> Prog A) (h : Exn -> Prog A).
Arguments Ret {A} a.
Arguments Throw {A} e.
Arguments Await {A X} op k h.

Definition await {X} (op : Action X) : Prog X := Await op Ret Throw.

Fixpoint bind {A B} (p : Prog A) (f : A -> Prog B) : Prog B :=
  match p with
  | Ret a => f a
  | Throw e => Throw e
  | Await op k h => Await op (fun x => bind (k x) f) (fun e => bind (h e) f)
  end.

(** [try { p } catch (e) { handler e }] *)
Fixpoint try_catch {A} (p : Prog A) (handler : Exn -> Prog A) : Prog A :=
  match p with
  | Ret a => Ret a
  | Throw e => handler e
  | Await op k h =>
      Await op (fun x => try_catch (k x) handler)
               (fun e => try_catch (h e) handler)
  end.

Declare Scope prog_scope.
Delimit Scope prog_scope with prog.
Notation "x <- p ;; q" := (bind p (fun x => q))
  (at level 100, p at next level, right associativity) : prog_scope.
Notation "p ;;; q" := (bind p (fun _ => q))
  (at level 100, right associativity) : prog_scope.
Local Open Scope prog_scope.

(** Running a task to completion, with no other task in between. *)
Fixpoint run {A} (p : Prog A) (w : World) : Res A * World :=
  match p with
  | Ret a => (Ok a, w)
  | Throw e => (Thrown e, w)
  | Await op k h =>
      match op w with
      | (Ok x, w') => run (k x) w'
      | (Thrown e, w') => run (h e) w'
      end
  end.

(** One step of a task: up to and including its next awaited call. *)
Definition step {A} (p : Prog A) (w : World) : Prog A * World :=
  match p with
  | Await op k h =>
      match op w with
      | (Ok x, w') => (k x, w')
      | (Thrown e, w') => (h e, w')
      end
  | _ => (p, w)
  end.

(** Two tasks on one event loop: the schedule says which task takes the
    next step ([true] the first, [false] the second). *)
Fixpoint interleave {A B} (sched : list bool) (p : Prog A) (q : Prog B)
    (w : World) : Prog A * Prog B * World :=
  match sched with
  | [] => (p, q, w)
  | true :: s => let '(p', w') := step p w in interleave s p' q w'
  | false :: s => let '(q', w') := step q w in interleave s p q' w'
  end.

Definition finished {A} (p : Prog A) : bool :=
  match p with
  | Await _ _ _ => false
  | _ => true
  end.

(** ** Collaborators outside the sources

    The channel provider, the model provider, the vector index and
    [JSON.parse] are parameters.  [conversation_unique] says whether the
    store's schema, which is not part of the sources, declares
    (propertyId, guestPhoneNumber) unique on conversations. *)

Definition Embedding := list Q.

#[local] Unset Elimination Schemes.
Inductive Json :=
| JNull
| JBool (b : bool)
| JNum (q : Q)
| JStr (s : string)
| JArr (l : list Json)
| JObj (l : list (string * Json)).
#[local] Set Elimination Schemes.

(** A row returned by the [match_embeddings] procedure. *)
Record MatchRow := mkMatchRow {
  mr_id : Id;
  mr_content : string;
  mr_metadata : string;
  mr_similarity : Q
}.

(** The [{ data, error }] answer of [supabase.rpc]. *)
Inductive RpcResponse :=
| RpcError (message : string)
| RpcData (data : list MatchRow).

(** An element of the array [searchSimilar] returns. *)
Record SimilarDoc := mkSimilarDoc {
  sd_id : Id;
  sd_content : string;
  sd_metadata : Json;
  sd_similarity : Q
}.

Record Env := mkEnv {
  TWILIO_PHONE_NUMBER : string;
  (** [client.messages.create({from, to, body})]: the sid, or a rejection *)
  twilio_messages_create : string -> string -> string -> option string;
  (** [openai.createEmbedding] followed by [.data.data[0].embedding] *)
  openai_createEmbedding : string -> option Embedding;
  (** [openai.createChatCompletion] on the system and user contents,
      followed by [.data.choices[0].message.content] *)
  openai_createChatCompletion : string -> string -> option string;
  (** [supabase.rpc('match_embeddings', ...)] *)
  supabase_match_embeddings : Embedding -> Q -> nat -> Id -> RpcResponse;
  JSON_parse : string -> option Json;
  conversation_unique : bool
}.

(** ** Store calls (Prisma) *)

Definition with_db (w : World) (d : DB) : World :=
  mkWorld d (outbox w) (now w).

Definition with_outbox (w : World) (o : list Sms) : World :=
  mkWorld (db w) o (now w).

Module Prisma.

Definition read {X} (f : DB -> X) : Action X :=
  fun w => (Ok (f (db w)), w).

(** [prisma.property.findFirst({ where: { phoneNumber } })] *)
Definition property_findFirst (phone : string) : Action (option Property) :=
  read (fun d => List.find (fun p => String.eqb (phoneNumber p) phone)
                           (properties d)).

(** [prisma.property.findUnique({ where: { id } })] *)
Definition property_findUnique (id : Id) : Action (option Property) :=
  read (fun d => List.find (fun p => Nat.eqb (p_id p) id) (properties d)).

(** [prisma.user.findUnique({ where: { id } })] *)
Definition user_findUnique (id : Id) : Action (option User) :=
  read (fun d => users d !! id).

(** [prisma.user.update({ where: { id },
      data: { messageCount: { increment: n } } })];
    the call is rejected when no such record exists. *)
Definition user_increment (id : Id) (n : Z) : Action User :=
  fun w =>
    let d := db w in
    match users d !! id with
    | Some u =>
        let u' := mkUser (u_id u) (messageCount u + n) (messageLimit u) in
        (Ok u', with_db w (mkDB (<[id := u']> (users d)) (properties d)
                                (conversations d) (messages d) (nextId d)))
    | None => (Thrown (PrismaError "P2025"), w)
    end.

Definition same_pair (pid : Id) (phone : string) (c : Conversation) : bool :=
  Nat.eqb (propertyId c) pid && String.eqb (guestPhoneNumber c) phone.

(** [prisma.conversation.findFirst({ where: { propertyId, guestPhoneNumber } })] *)
Definition conversation_findFirst (pid : Id) (phone : string)
  : Action (option Conversation) :=
  read (fun d => List.find (same_pair pid phone) (conversations d)).

(** [prisma.conversation.create({ data: { propertyId, guestPhoneNumber,
      guestName } })]; under a unique constraint on the pair the call
    is rejected when a row for the pair exists. *)
Definition conversation_create (unique : bool) (pid : Id)
    (phone gname : string) : Action Conversation :=
  fun w =>
    let d := db w in
    if unique && existsb (same_pair pid phone) (conversations d)
    then (Thrown (PrismaError "P2002"), w)
    else
      let c := mkConversation (nextId d) pid phone gname (now w) in
      (Ok c, with_db w (mkDB (users d) (properties d)
                             (conversations d ++ [c]) (messages d)
                             (S (nextId d)))).

(** [prisma.conversation.findUnique({ where: { id },
      include: { property: true } })] *)
Definition conversation_findUnique (id : Id)
  : Action (option (Conversation * option Property)) :=
  read (fun d =>
    match List.find (fun c => Nat.eqb (c_id c) id) (conversations d) with
    | Some c =>
        Some (c, List.find (fun p => Nat.eqb (p_id p) (propertyId c))
                           (properties d))
    | None => None
    end).

Definition touch (id : Id) (t : nat) (c : Conversation) : Conversation :=
  if Nat.eqb (c_id c) id
  then mkConversation (c_id c) (propertyId c) (guestPhoneNumber c)
                      (guestName c) t
  else c.

(** [prisma.conversation.update({ where: { id },
      data: { updatedAt: new Date() } })] *)
Definition conversation_touch (id : Id) : Action unit :=
  fun w =>
    let d := db w in
    if existsb (fun c => Nat.eqb (c_id c) id) (conversations d)
    then (Ok tt, with_db w (mkDB (users d) (properties d)
                                 (List.map (touch id (now w)) (conversations d))
                                 (messages d) (nextId d)))
    else (Thrown (PrismaError "P2025"), w).

(** [prisma.message.create({ data: { conversationId, content,
      isFromGuest } })] *)
Definition message_create (cid : Id) (text : string) (fromGuest : bool)
  : Action Message :=
  fun w =>
    let d := db w in
    let m := mkMessage (nextId d) cid text fromGuest in
    (Ok m, with_db w (mkDB (users d) (properties d) (conversations d)
                           (messages d ++ [m]) (S (nextId d)))).

(** [prisma.message.findMany({ where: { conversationId },
      orderBy: { createdAt: 'desc' }, take: n })] *)
Definition message_findMany (cid : Id) (n : nat) : Action (list Message) :=
  read (fun d =>
    List.firstn n
      (List.rev (List.filter (fun m => Nat.eqb (conversationId m) cid)
                             (messages d)))).

End Prisma.

(** ** Services *)

Section Services.

Variable env : Env.

(** *** [twilio.js]: dispatch *)

Definition whatsapp (number : string) : string :=
  if Js.startsWith number "whatsapp:" then number else "whatsapp:" +:+ number.

Definition messages_create (from to body : string) : Action string :=
  fun w =>
    match twilio_messages_create env from to body with
    | Some sid => (Ok sid, with_outbox w (outbox w ++ [mkSms from to body]))
    | None => (Thrown (ProviderError "twilio"), w)
    end.

Definition sendMessage (from to body : string) : Prog string :=
  try_catch
    (let formattedFrom := whatsapp from in
     let formattedTo := whatsapp to in
     message <- await (messages_create formattedFrom formattedTo body) ;;
     Ret message)
    (fun _ => Throw (JsError "Failed to send message via Twilio")).

Definition sendWhatsAppMessage (to body : string) : Prog string :=
  try_catch
    (let formattedTo := whatsapp to in
     message <- await (messages_create
                         ("whatsapp:" +:+ TWILIO_PHONE_NUMBER env)
                         formattedTo body) ;;
     Ret message)
    (fun error => Throw error).

(** *** [openai.js]: embeddings *)

Definition createEmbedding (text : string) : Action Embedding :=
  fun w =>
    match openai_createEmbedding env text with
    | Some v => (Ok v, w)
    | None => (Thrown (ProviderError "openai"), w)
    end.

Definition generateEmbedding (text : string) : Prog Embedding :=
  try_catch
    (response <- await (createEmbedding text) ;;
     Ret response)
    (fun _ => Throw (JsError "Failed to generate embedding")).

(** *** [vector-database.js]: similarity search *)

Definition rpc_match_embeddings (queryEmbedding : Embedding)
    (threshold : Q) (count : nat) (pid : Id) : Action RpcResponse :=
  fun w => (Ok (supabase_match_embeddings env queryEmbedding threshold
                                          count pid), w).

(** [data.map(item => ({ ..., metadata: JSON.parse(item.metadata), ... }))];
    the first metadata that does not parse throws. *)
Fixpoint formatResults (data : list MatchRow) : Res (list SimilarDoc) :=
  match data with
  | [] => Ok []
  | item :: rest =>
      match JSON_parse env (mr_metadata item) with
      | None => Thrown (SyntaxError "Unexpected token in JSON")
      | Some meta =>
          match formatResults rest with
          | Ok docs =>
              Ok (mkSimilarDoc (mr_id item) (mr_content item) meta
                               (mr_similarity item) :: docs)
          | Thrown e => Thrown e
          end
      end
  end.

Definition searchSimilar (query : string) (pid : Id) (limit : nat)
    (similarityThreshold : Q) : Prog (list SimilarDoc) :=
  try_catch
    (queryEmbedding <- generateEmbedding query ;;
     response <- await (rpc_match_embeddings queryEmbedding
                          similarityThreshold limit pid) ;;
     match response with
     | RpcError message =>
         Throw (JsError ("Error in similarity search: " +:+ message))
     | RpcData data =>
         match formatResults data with
         | Ok docs => Ret docs
         | Thrown e => Throw e
         end
     end)
    (fun error => Throw error).

(** *** [ai-assistant.js]: prompt and reply *)

(** [property.propertyDetails || {}]: every field of [{}] is undefined. *)
Definition noDetails : PropertyDetails :=
  mkDetails None None None None None None None None None.

(** [${field ? `label${field}` : ''}] *)
Definition detailLine (label : string) (field : option string) : string :=
  match field with
  | Some v => if String.eqb v EmptyString then EmptyString else label +:+ v
  | None => EmptyString
  end.

Definition promptIntro (pname relevantInfo : string) : list string :=
  [ "You are an AI assistant for " +:+ pname
      +:+ ", an Airbnb/rental property. Your name is Hostenly.";
    "";
    "Your role is to assist guests by providing accurate information about the property and answering their questions in a friendly, helpful manner.";
    "";
    "Here is specific information about the property that you can use to answer guest questions:";
    "";
    relevantInfo;
    "";
    "Additional property details:" ].

Definition promptDetails (details : PropertyDetails) : list string :=
  [ detailLine "- Check-in time: " (checkInTime details);
    detailLine "- Check-out time: " (checkOutTime details);
    detailLine "- WiFi password: " (wifiPassword details);
    detailLine "- Location: " (location details) ].

Definition promptGuidelines : list string :=
  [ "";
    "Important guidelines:";
    "1. Only provide information that is contained in the property details above.";
    "2. If you don't know the answer to a question, politely say so and offer to relay the message to the host.";
    "3. Be conversational and friendly, but professional.";
    "4. Keep responses concise and to the point.";
    "5. Do not make up or hallucinate any information that is not provided.";
    "6. If asked about something not in your knowledge base, say: " +:+ Js.dq
      +:+ "I don't have that information available, but I can ask the host for you."
      +:+ Js.dq;
    "7. Never share the WiFi password unless specifically asked for it.";
    "";
    "Respond to the guest's latest message based on the conversation history and the information provided." ].

(** The template literal of [createSystemPrompt], line by line. *)
Definition createSystemPrompt (property : Property) (relevantInfo : string)
  : string :=
  let details :=
    match propertyDetails property with
    | Some d => d
    | None => noDetails
    end in
  Js.join Js.nl (promptIntro (name property) relevantInfo
                 ++ promptDetails details ++ promptGuidelines).

Definition formatTurn (msg : Message) : string :=
  let role := if isFromGuest msg then "Guest" else "Host" in
  role +:+ ": " +:+ content msg.

Definition userTurn (formattedHistory message : string) : string :=
  "Conversation history:" +:+ Js.nl +:+ formattedHistory +:+ Js.nl +:+ Js.nl
    +:+ "Guest's latest message: " +:+ message.

Definition createChatCompletion (system user : string) : Action string :=
  fun w =>
    match openai_createChatCompletion env system user with
    | Some text => (Ok text, w)
    | None => (Thrown (ProviderError "openai"), w)
    end.

Definition apology : string :=
  "I apologize, but I encountered an issue processing your request. Please try again later or contact the host directly.".

Definition processMessage (pid cid : Id) (message : string) : Prog string :=
  try_catch
    (property <- await (Prisma.property_findUnique pid) ;;
     match property with
     | None => Throw (JsError "Property not found")
     | Some property =>
         messageHistory <- await (Prisma.message_findMany cid 10) ;;
         let chronologicalMessages := List.rev messageHistory in
         relevantInfo <- searchSimilar message pid 3 (6 # 10)%Q ;;
         let formattedHistory :=
           Js.join Js.nl (List.map formatTurn chronologicalMessages) in
         let formattedRelevantInfo :=
           Js.join Js.nl (List.map sd_content relevantInfo) in
         let systemPrompt :=
           createSystemPrompt property formattedRelevantInfo in
         completion <- await (createChatCompletion systemPrompt
                                (userTurn formattedHistory message)) ;;
         Ret (Js.trim completion)
     end)
    (fun _ => Ret apology).

(** *** [twilio.js]: the inbound pipeline *)

Record MessageData := mkMessageData {
  From : string;
  To : string;
  Body : string;
  ProfileName : option string
}.

(** The object [processIncomingMessage] resolves to. *)
Inductive Outcome :=
| Failure (error : string)
| Success (pid cid mid : Id).

Definition limitNotice : string :=
  "I apologize, but this property has reached its message limit. Please contact the host directly.".

Definition processIncomingMessage (messageData : MessageData) : Prog Outcome :=
  try_catch
    (let guestPhone := Js.replace "whatsapp:" "" (From messageData) in
     let propertyPhoneNumber := Js.replace "whatsapp:" "" (To messageData) in
     property <- await (Prisma.property_findFirst propertyPhoneNumber) ;;
     match property with
     | None => Ret (Failure "Property not found")
     | Some property =>
         user <- await (Prisma.user_findUnique (userId property)) ;;
         match user with
         | None =>
             Throw (TypeError
               "Cannot read properties of null (reading 'messageCount')")
         | Some user =>
             if (messageCount user >=? messageLimit user)%Z then
               sendWhatsAppMessage guestPhone limitNotice ;;;
               Ret (Failure "Message limit reached")
             else
               found <- await (Prisma.conversation_findFirst
                                 (p_id property) guestPhone) ;;
               conversation <-
                 (match found with
                  | Some c => Ret c
                  | None =>
                      await (Prisma.conversation_create
                               (conversation_unique env) (p_id property)
                               guestPhone
                               (Js.or_else (ProfileName messageData) "Guest"))
                  end) ;;
               message <- await (Prisma.message_create (c_id conversation)
                                   (Body messageData) true) ;;
               await (Prisma.user_increment (userId property) 1) ;;;
               aiResponse <- processMessage (p_id property)
                               (c_id conversation) (Body messageData) ;;
               await (Prisma.message_create (c_id conversation)
                        aiResponse false) ;;;
               await (Prisma.user_increment (userId property) 1) ;;;
               sendWhatsAppMessage guestPhone aiResponse ;;;
               Ret (Success (p_id property) (c_id conversation)
                            (m_id message))
         end
     end)
    (fun error => Throw error).

(** *** [twilio.js]: a message written by the host *)

Definition sendManualMessage (cid : Id) (text : string) : Prog Message :=
  try_catch
    (conversation <- await (Prisma.conversation_findUnique cid) ;;
     match conversation with
     | None => Throw (JsError "Conversation not found")
     | Some (conversation, property) =>
         message <- await (Prisma.message_create cid text false) ;;
         match property with
         | None =>
             Throw (TypeError
               "Cannot read properties of null (reading 'userId')")
         | Some property =>
             await (Prisma.user_increment (userId property) 1) ;;;
             sendWhatsAppMessage (guestPhoneNumber conversation) text ;;;
             Ret message
         end
     end)
    (fun error => Throw error).

(** *** HTTP routes *)

Inductive ResBody :=
| Xml (text : string)
| JsonError (message : string)
| JsonMessage (m : Message).

Record Response := mkResponse {
  status : nat;
  body : ResBody
}.

(** [webhook.js], [POST /twilio]: the same TwiML answer on both
    branches; Express sends it with status 200. *)
Definition twiml : Response := mkResponse 200 (Xml "<Response></Response>").

Definition postTwilio (reqBody : MessageData) : Prog Response :=
  try_catch
    (processIncomingMessage reqBody ;;;
     Ret twiml)
    (fun _ => Ret twiml).

(** The [content] member of a parsed JSON request body. *)
Inductive BodyValue :=
| Absent
| Text (s : string)
| NotText (isTruthy : bool).

(** [conversation.js], [POST /:id/messages], after [authenticate] has
    set [req.userId]. *)
Definition postMessage (reqUserId : Id) (id : Id) (reqContent : BodyValue)
  : Prog Response :=
  try_catch
    (match reqContent with
     | Absent | NotText _ =>
         Ret (mkResponse 400 (JsonError "Message content is required"))
     | Text text =>
         if String.eqb text "" || String.eqb (Js.trim text) "" then
           Ret (mkResponse 400 (JsonError "Message content is required"))
         else
           conversation <- await (Prisma.conversation_findUnique id) ;;
           match conversation with
           | None => Ret (mkResponse 404 (JsonError "Conversation not found"))
           | Some (conversation, None) =>
               Throw (TypeError
                 "Cannot read properties of null (reading 'userId')")
           | Some (conversation, Some property) =>
               if negb (Nat.eqb (userId property) reqUserId) then
                 Ret (mkResponse 403 (JsonError "Forbidden"))
               else
                 message <- await (Prisma.message_create id text false) ;;
                 await (Prisma.conversation_touch id) ;;;
                 try_catch
                   (sendMessage (phoneNumber property)
                                (guestPhoneNumber conversation) text ;;;
                    Ret tt)
                   (fun _ => Ret tt) ;;;
                 Ret (mkResponse 201 (JsonMessage message))
           end
     end)
    (fun _ =>
       Ret (mkResponse 500 (JsonError "Server error while sending message"))).

End Services.

Arguments processIncomingMessage env messageData : simpl never.
Arguments processMessage env pid cid message : simpl never.
Arguments sendWhatsAppMessage env to body : simpl never.
Arguments sendMessage env from to body : simpl never.
Arguments searchSimilar env query pid limit similarityThreshold : simpl never.
Arguments createSystemPrompt property relevantInfo : simpl never.

(** ** Readings of a run

    The notions the statements below are written with. *)

(** The store and provider state after a run. *)
Definition after {A} (p : Prog A) (w : World) : World := snd (run p w).

(** The result of a run. *)
Definition result {A} (p : Prog A) (w : World) : Res A := fst (run p w).

(** What [searchSimilar] resolves or rejects to. *)
Definition searchOutcome (env : Env) (query : string) (pid : Id) (limit : nat)
    (threshold : Q) : Res (list SimilarDoc) :=
  match openai_createEmbedding env query with
  | None => Thrown (JsError "Failed to generate embedding")
  | Some v =>
      match supabase_match_embeddings env v threshold limit pid with
      | RpcError message =>
          Thrown (JsError ("Error in similarity search: " +:+ message))
      | RpcData data => formatResults env data
      end
  end.

(** The text [processMessage] resolves to, read off the store. *)
Definition replyOf (env : Env) (d : DB) (pid cid : Id) (message : string) : string :=
  match List.find (fun p => Nat.eqb (p_id p) pid) (properties d) with
  | None => apology
  | Some property =>
      let history :=
        List.rev (List.firstn 10 (List.rev
          (List.filter (fun m => Nat.eqb (conversationId m) cid)
                       (messages d)))) in
      match searchOutcome env message pid 3 (6 # 10)%Q with
      | Thrown _ => apology
      | Ok relevantInfo =>
          match openai_createChatCompletion env
                  (createSystemPrompt property
                     (Js.join Js.nl (List.map sd_content relevantInfo)))
                  (userTurn (Js.join Js.nl (List.map formatTurn history))
                            message) with
          | Some completion => Js.trim completion
          | None => apology
          end
      end
  end.

(** The two addresses of an event, without the channel prefix. *)
Definition guestOf (md : MessageData) : string :=
  Js.replace "whatsapp:" "" (From md).

Definition lineOf (md : MessageData) : string :=
  Js.replace "whatsapp:" "" (To md).

(** The property an event resolves to. *)
Definition resolve (md : MessageData) (w : World) : option Property :=
  List.find (fun p => String.eqb (phoneNumber p) (lineOf md))
            (properties (db w)).

(** The conversation an event finds for its (property, guest) pair. *)
Definition thread (md : MessageData) (p : Property) (w : World)
  : option Conversation :=
  List.find (Prisma.same_pair (p_id p) (guestOf md)) (conversations (db w)).

(** [n] units added to an account's counter. *)
Definition consume (n : Z) (u : User) : User :=
  mkUser (u_id u) (messageCount u + n) (messageLimit u).

(** The message the service hands to the channel provider. *)
Definition outgoing (env : Env) (to text : string) : Sms :=
  mkSms ("whatsapp:" +:+ TWILIO_PHONE_NUMBER env) (whatsapp to) text.

Definition accepted (env : Env) (m : Sms) : Prop :=
  is_Some (twilio_messages_create env (sms_from m) (sms_to m) (sms_body m)).

(** The quota gate admits an event: it resolves to a property whose
    owning account exists and has [messageCount < messageLimit]. *)
Definition admitted (md : MessageData) (w : World) : Prop :=
  exists p u,
    resolve md w = Some p
    /\ users (db w) !! userId p = Some u
    /\ (messageCount u < messageLimit u)%Z.

(** The conversation the admitted path works on and the conversation
    table after the lookup-or-create step. *)
Definition newConversation (md : MessageData) (w : World) (p : Property) : Conversation :=
  mkConversation (nextId (db w)) (p_id p) (guestOf md)
                 (Js.or_else (ProfileName md) "Guest") (now w).

Definition conversationFor (md : MessageData) (w : World) (p : Property) : Conversation :=
  match thread md p w with
  | Some c => c
  | None => newConversation md w p
  end.

Definition conversationsAfter (md : MessageData) (w : World)
    (p : Property) : list Conversation :=
  match thread md p w with
  | Some _ => conversations (db w)
  | None => conversations (db w) ++ [newConversation md w p]
  end.

(** The embedding provider or the vector store fails on the pipeline's
    retrieval request for [query] in property [pid]. *)
Definition retrievalProviderFails (env : Env) (query : string) (pid : Id)
  : Prop :=
  openai_createEmbedding env query = None
  \/ exists v message,
       openai_createEmbedding env query = Some v
       /\ supabase_match_embeddings env v (6 # 10)%Q 3 pid = RpcError message.

(** *** Fields of the property details *)

(** The optional text fields of [propertyDetailsSchema]; [faqs], the one
    optional field that is not a string, has no line in the template
    either. *)
Inductive DetailField :=
| CheckInTime
| CheckOutTime
| WifiPassword
| HouseRules
| Location
| NearbyAttractions
| EmergencyContacts
| CustomNotes.

Definition fieldValue (f : DetailField) (d : PropertyDetails) : option string :=
  match f with
  | CheckInTime => checkInTime d
  | CheckOutTime => checkOutTime d
  | WifiPassword => wifiPassword d
  | HouseRules => houseRules d
  | Location => location d
  | NearbyAttractions => nearbyAttractions d
  | EmergencyContacts => emergencyContacts d
  | CustomNotes => customNotes d
  end.

Definition setField (f : DetailField) (v : option string) (d : PropertyDetails)
  : PropertyDetails :=
  match f with
  | CheckInTime =>
      mkDetails v (checkOutTime d) (wifiPassword d) (houseRules d) (location d)
                (nearbyAttractions d) (emergencyContacts d) (faqs d)
                (customNotes d)
  | CheckOutTime =>
      mkDetails (checkInTime d) v (wifiPassword d) (houseRules d) (location d)
                (nearbyAttractions d) (emergencyContacts d) (faqs d)
                (customNotes d)
  | WifiPassword =>
      mkDetails (checkInTime d) (checkOutTime d) v (houseRules d) (location d)
                (nearbyAttractions d) (emergencyContacts d) (faqs d)
                (customNotes d)
  | HouseRules =>
      mkDetails (checkInTime d) (checkOutTime d) (wifiPassword d) v (location d)
                (nearbyAttractions d) (emergencyContacts d) (faqs d)
                (customNotes d)
  | Location =>
      mkDetails (checkInTime d) (checkOutTime d) (wifiPassword d) (houseRules d)
                v (nearbyAttractions d) (emergencyContacts d) (faqs d)
                (customNotes d)
  | NearbyAttractions =>
      mkDetails (checkInTime d) (checkOutTime d) (wifiPassword d) (houseRules d)
                (location d) v (emergencyContacts d) (faqs d) (customNotes d)
  | EmergencyContacts =>
      mkDetails (checkInTime d) (checkOutTime d) (wifiPassword d) (houseRules d)
                (location d) (nearbyAttractions d) v (faqs d) (customNotes d)
  | CustomNotes =>
      mkDetails (checkInTime d) (checkOutTime d) (wifiPassword d) (houseRules d)
                (location d) (nearbyAttractions d) (emergencyContacts d)
                (faqs d) v
  end.

(** The label of the template line that interpolates a field, for the
    four fields the template of [createSystemPrompt] names. *)
Definition promptLabel (f : DetailField) : option string :=
  match f with
  | CheckInTime => Some "- Check-in time: "
  | CheckOutTime => Some "- Check-out time: "
  | WifiPassword => Some "- WiFi password: "
  | Location => Some "- Location: "
  | HouseRules | NearbyAttractions | EmergencyContacts | CustomNotes => None
  end.

Definition detailsOf (property : Property) : PropertyDetails :=
  match propertyDetails property with
  | Some d => d
  | None => noDetails
  end.

(** *** Tasks that take turns *)

(** The conversation rows of a (property, guest) pair. *)
Definition rowsFor (pid : Id) (phone : string) (w : World) : list Conversation :=
  List.filter (Prisma.same_pair pid phone) (conversations (db w)).

(** The schedule that lets two tasks take turns, [n] steps each. *)
Definition alternate (n : nat) : list bool :=
  List.flat_map (fun _ => [true; false]) (List.seq 0 n).

(** ** A concrete deployment, used to exercise the statements *)

Module Scenario.

Definition villa : Property :=
  mkProperty 1 "Villa Sol" "+15550100" 7 None.

Definition host (count limit : Z) : User := mkUser 7 count limit.

(** One property whose owner has used [count] of [limit] messages;
    no conversation yet. *)
Definition world (count limit : Z) : World :=
  mkWorld (mkDB {[ 7%nat := host count limit ]} [villa] [] [] 100) [] 0.

(** The same property with no account row for its owner. *)
Definition orphaned : World :=
  mkWorld (mkDB ∅ [villa] [] [] 100) [] 0.

Definition talk : Conversation :=
  mkConversation 50 1 "+15550199" "Ana" 0.

(** The same deployment once the guest and the property have a
    conversation. *)
Definition chatting (count limit : Z) : World :=
  mkWorld (mkDB {[ 7%nat := host count limit ]} [villa] [talk] [] 100) [] 5.

Definition hello : MessageData :=
  mkMessageData "whatsapp:+15550199" "whatsapp:+15550100"
                "What time is check-in?" (Some "Ana").

Definition anonymous : MessageData :=
  mkMessageData "whatsapp:+15550199" "whatsapp:+15550100"
                "What time is check-in?" None.

Definition stray : MessageData :=
  mkMessageData "whatsapp:+15550199" "whatsapp:+15559999" "Hello?" None.

Definition chunk : MatchRow :=
  mkMatchRow 40 "Check-in time: 3pm" "{}" (9 # 10).

(** Every collaborator answers. *)
Definition healthy : Env :=
  mkEnv "+15550000"
        (fun _ _ _ => Some "SM1")
        (fun _ => Some [(1 # 2)%Q])
        (fun _ _ => Some " Check-in is at 3pm. ")
        (fun _ _ _ _ => RpcData [chunk])
        (fun _ => Some (JObj []))
        false.

(** The embedding provider is down. *)
Definition noEmbeddings : Env :=
  mkEnv "+15550000"
        (fun _ _ _ => Some "SM1")
        (fun _ => None)
        (fun _ _ => Some " Check-in is at 3pm. ")
        (fun _ _ _ _ => RpcData [chunk])
        (fun _ => Some (JObj []))
        false.

(** The completion provider is down. *)
Definition noCompletion : Env :=
  mkEnv "+15550000"
        (fun _ _ _ => Some "SM1")
        (fun _ => Some [(1 # 2)%Q])
        (fun _ _ => None)
        (fun _ _ _ _ => RpcData [chunk])
        (fun _ => Some (JObj []))
        false.

(** [healthy] over a store that declares the pair unique. *)
Definition healthyUnique : Env :=
  mkEnv "+15550000"
        (fun _ _ _ => Some "SM1")
        (fun _ => Some [(1 # 2)%Q])
        (fun _ _ => Some " Check-in is at 3pm. ")
        (fun _ _ _ _ => RpcData [chunk])
        (fun _ => Some (JObj []))
        true.

End Scenario.

(** ** The rest of the services and routes

    Strings are read as sequences of UTF-8 bytes. *)

Module JsText.

(** The characters [encodeURIComponent] leaves as they are: letters,
    digits and [- _ . ! ~ * ' ( )]. *)
Definition unreserved (c : ascii) : bool :=
  let n := nat_of_ascii c in
  (((65 <=? n) && (n <=? 90)) || ((97 <=? n) && (n <=? 122))
   || ((48 <=? n) && (n <=? 57))
   || (n =? 45) || (n =? 95) || (n =? 46) || (n =? 33) || (n =? 126)
   || (n =? 42) || (n =? 39) || (n =? 40) || (n =? 41))%nat.

Definition hexDigit (n : nat) : ascii :=
  ascii_of_nat (if (n <? 10)%nat then 48 + n else 55 + n).

(** [%XX], with upper-case digits. *)
Definition percent (c : ascii) : string :=
  String (ascii_of_nat 37)
    (String (hexDigit (nat_of_ascii c / 16))
       (String (hexDigit (nat_of_ascii c mod 16)) EmptyString)).

(** [encodeURIComponent(s)]: every byte that is not unreserved is
    written as its escape. *)
Fixpoint encodeURIComponent (s : string) : string :=
  match s with
  | EmptyString => EmptyString
  | String c s' =>
      (if unreserved c then String c EmptyString else percent c)
        +:+ encodeURIComponent s'
  end.

(** [s.split(sep)] for a separator of one character. *)
Fixpoint split (sep : ascii) (s : string) : list string :=
  match s with
  | EmptyString => [EmptyString]
  | String c s' =>
      if Ascii.eqb c sep then EmptyString :: split sep s'
      else match split sep s' with
           | word :: rest => String c word :: rest
           | [] => [String c EmptyString]
           end
  end.

(** [arr[i]]; [None] is [undefined]. *)
Definition at_index (l : list string) (i : nat) : option string :=
  List.nth_error l i.

(** [f] holds of every character of [s]. *)
Fixpoint every (f : ascii -> bool) (s : string) : bool :=
  match s with
  | EmptyString => true
  | String c s' => f c && every f s'
  end.

(** The characters an encoded component is made of: the unreserved
    ones and the percent sign of an escape. *)
Definition encoded (c : ascii) : bool :=
  unreserved c || Ascii.eqb c (ascii_of_nat 37).

End JsText.

(** [error.message] *)
Definition messageOf (e : Exn) : string :=
  match e with
  | JsError m | TypeError m | SyntaxError m | PrismaError m
  | ProviderError m => m
  end.

(** *** [twilio.js]: the QR code link *)

Definition qrService : string :=
  "https://chart.googleapis.com/chart?cht=qr&chs=300x300&chl=".

Definition generateWhatsAppQRCode (pid : Id) : Prog string :=
  try_catch
    (property <- await (Prisma.property_findUnique pid) ;;
     match property with
     | None => Throw (JsError "Property not found")
     | Some property =>
         let formattedNumber :=
           if Js.startsWith (phoneNumber property) "+"
           then Js.drop 1 (phoneNumber property)
           else phoneNumber property in
         let whatsappLink := "https://wa.me/" +:+ formattedNumber in
         let qrCodeUrl :=
           qrService +:+ JsText.encodeURIComponent whatsappLink in
         Ret qrCodeUrl
     end)
    (fun error => Throw error).

(** [webhook.js], [GET /whatsapp-qr/:propertyId] *)
Inductive QrBody :=
| QrLink (qrCodeUrl : string)   (* [{ success: true, qrCodeUrl }] *)
| QrFailed (error : string)     (* [{ success: false, error }] *).

Definition getWhatsappQr (pid : Id) : Prog (nat * QrBody) :=
  try_catch
    (qrCodeUrl <- generateWhatsAppQRCode pid ;;
     Ret (200, QrLink qrCodeUrl))
    (fun error => Ret (500, QrFailed (messageOf error))).

(** *** [conversation.js]: the [authenticate] middleware *)

(** What [jwt.verify(token, secret)] does: the decoded payload's
    [userId], or an exception of the given [name]. *)
Inductive JwtVerdict :=
| JwtDecoded (userId : Id)
| JwtThrows (errorName : string).

(** The middleware either calls [next()] with [req.userId] set, or
    answers itself. *)
Inductive Gate :=
| Next (reqUserId : Id)
| Answered (r : Response).

Definition authenticate (verify : string -> JwtVerdict)
    (authorization : option string) : Gate :=
  match authorization with
  | None => Answered (mkResponse 401 (JsonError "Unauthorized"))
  | Some authHeader =>
      if String.eqb authHeader EmptyString
         || negb (Js.startsWith authHeader "Bearer ")
      then Answered (mkResponse 401 (JsonError "Unauthorized"))
      else
        match JsText.at_index (JsText.split " " authHeader) 1 with
        | None =>
            (* [jwt.verify(undefined, ...)] throws a JsonWebTokenError *)
            Answered (mkResponse 401 (JsonError "Invalid or expired token"))
        | Some token =>
            match verify token with
            | JwtDecoded userId => Next userId
            | JwtThrows errorName =>
                if String.eqb errorName "JsonWebTokenError"
                   || String.eqb errorName "TokenExpiredError"
                then Answered
                       (mkResponse 401 (JsonError "Invalid or expired token"))
                else Answered
                       (mkResponse 500
                          (JsonError "Server error during authentication"))
            end
        end
  end.

(** [router.post('/:id/messages', authenticate, handler)] *)
Definition postMessageRoute (env : Env) (verify : string -> JwtVerdict)
    (authorization : option string) (id : Id) (reqContent : BodyValue)
  : Prog Response :=
  match authenticate verify authorization with
  | Next reqUserId => postMessage env reqUserId id reqContent
  | Answered r => Ret r
  end.

(** *** [openai.js]: the older retrieval helper *)

(** [findSimilarContent]; [queryRaw] is the raw similarity query of the
    store, which may be rejected. *)
Definition findSimilarContent (env : Env)
    (queryRaw : Embedding -> Id -> nat -> option (list MatchRow))
    (pid : Id) (query : string) (limit : nat) : Prog (list MatchRow) :=
  try_catch
    (queryEmbedding <- generateEmbedding env query ;;
     similarContent <-
       await (fun w =>
                match queryRaw queryEmbedding pid limit with
                | Some found => (Ok found, w)
                | None => (Thrown (PrismaError "P2010"), w)
                end) ;;
     Ret similarContent)
    (fun _ => Ret []).

(** *** [property.js]: indexing the property details *)

(** A row of the [vectorEmbedding] table. *)
Record VectorEmbedding := mkVectorEmbedding {
  ve_id : Id;
  ve_propertyId : Id;
  ve_content : string;
  ve_embedding : Embedding;
  ve_metadata : Json
}.

Record VectorTable := mkVectorTable {
  ve_rows : list VectorEmbedding;
  ve_next : Id
}.

(** [if (field) chunks.push(`label${field}`)] *)
Definition chunkOf (label : string) (field : option string) : list string :=
  match field with
  | Some v => if String.eqb v EmptyString then [] else [label +:+ v]
  | None => []
  end.

(** The [faqs] record as [Object.entries] lists it. *)
Definition faqChunks (entries : option (list (string * string))) : list string :=
  match entries with
  | Some l =>
      List.map (fun qa => "FAQ - " +:+ fst qa +:+ ": " +:+ snd qa) l
  | None => []
  end.

(** The [chunks] array of [generateEmbeddings]. *)
Definition detailChunks (d : PropertyDetails) : list string :=
  chunkOf "Check-in time: " (checkInTime d)
  ++ chunkOf "Check-out time: " (checkOutTime d)
  ++ chunkOf "WiFi password: " (wifiPassword d)
  ++ chunkOf "House rules: " (houseRules d)
  ++ chunkOf "Location information: " (location d)
  ++ chunkOf "Nearby attractions: " (nearbyAttractions d)
  ++ chunkOf "Emergency contacts: " (emergencyContacts d)
  ++ chunkOf "Additional information: " (customNotes d)
  ++ faqChunks (faqs d).

(** [prisma.vectorEmbedding.deleteMany({ where: { propertyId } })] *)
Definition vectors_deleteMany (pid : Id) (t : VectorTable) : VectorTable :=
  mkVectorTable
    (List.filter (fun r => negb (Nat.eqb (ve_propertyId r) pid)) (ve_rows t))
    (ve_next t).

(** [prisma.vectorEmbedding.create({ data: { propertyId, content,
      embedding, metadata: { type: 'property_details' } } })] *)
Definition vectors_create (pid : Id) (chunk : string) (e : Embedding)
    (t : VectorTable) : VectorTable :=
  mkVectorTable
    (ve_rows t ++
       [mkVectorEmbedding (ve_next t) pid chunk e
          (JObj [("type", JStr "property_details")])])
    (S (ve_next t)).

(** The loop [for (const chunk of chunks)]: it stops at the first chunk
    whose embedding cannot be generated. *)
Fixpoint embedChunks (env : Env) (pid : Id) (chunks : list string)
    (t : VectorTable) : Res unit * VectorTable :=
  match chunks with
  | [] => (Ok tt, t)
  | chunk :: rest =>
      match openai_createEmbedding env chunk with
      | None => (Thrown (JsError "Failed to generate embedding"), t)
      | Some e => embedChunks env pid rest (vectors_create pid chunk e t)
      end
  end.

(** [generateEmbeddings(propertyId, propertyDetails)]: the [catch] only
    logs. *)
Definition generateEmbeddings (env : Env) (pid : Id) (d : PropertyDetails)
    (t : VectorTable) : Res unit * VectorTable :=
  match embedChunks env pid (detailChunks d) (vectors_deleteMany pid t) with
  | (Ok _, t') => (Ok tt, t')
  | (Thrown _, t') => (Ok tt, t')
  end.

(** The label of a field's chunk. *)
Definition chunkLabel (f : DetailField) : string :=
  match f with
  | CheckInTime => "Check-in time: "
  | CheckOutTime => "Check-out time: "
  | WifiPassword => "WiFi password: "
  | HouseRules => "House rules: "
  | Location => "Location information: "
  | NearbyAttractions => "Nearby attractions: "
  | EmergencyContacts => "Emergency contacts: "
  | CustomNotes => "Additional information: "
  end.

(** The contents indexed for a property, in the order of the table. *)
Definition indexedFor (pid : Id) (t : VectorTable) : list string :=
  List.map ve_content
    (List.filter (fun r => Nat.eqb (ve_propertyId r) pid) (ve_rows t)).


(** *** Readings used for the history window *)

(** The messages of a conversation, in creation order. *)
Definition messagesOf (d : DB) (cid : Id) : list Message :=
  List.filter (fun m => Nat.eqb (conversationId m) cid) (messages d).

(** The last [n] elements of a list. *)
Definition lastN {X} (n : nat) (l : list X) : list X :=
  List.skipn (length l - n) l.

(** *** [stripe.js]: subscription events

    The handlers read and write columns of the user table beside the
    two counters: [stripeCustomerId] (a unique key, taken here as the
    lookup [byCustomer]), [subscriptionTier] and [subscriptionEnds]. *)

Record Plan := mkPlan {
  subscriptionTier : string;
  subscriptionEnds : option nat
}.

Record Accounts := mkAccounts {
  acc_users : gmap nat User;
  acc_plans : gmap nat Plan
}.

(** The plan ids of the environment; [None] is an unset variable. *)
Record PlanIds := mkPlanIds {
  STRIPE_STARTER_PLAN_ID : option string;
  STRIPE_PRO_PLAN_ID : option string;
  STRIPE_ENTERPRISE_PLAN_ID : option string
}.

(** The members of a Stripe subscription object the handlers read. *)
Record Subscription := mkSubscription {
  customer : string;
  sub_status : string;
  priceId : string;            (* [items.data[0].price.id] *)
  current_period_end : nat
}.

Inductive StripeEvent :=
| SubscriptionCreated (s : Subscription)
| SubscriptionUpdated (s : Subscription)
| SubscriptionDeleted (s : Subscription)
| InvoicePaymentSucceeded (invoiceCustomer : string)
| InvoicePaymentFailed (invoiceCustomer : string)
| OtherEvent (type : string).

(** [planId === process.env.X] *)
Definition isPlan (planId : string) (configured : option string) : bool :=
  match configured with
  | Some id => String.eqb planId id
  | None => false
  end.

(** The tier and the limit [handleSubscriptionChange] maps a plan to. *)
Definition tierOf (ids : PlanIds) (planId : string) : string * Z :=
  if isPlan planId (STRIPE_STARTER_PLAN_ID ids) then ("STARTER", 500%Z)
  else if isPlan planId (STRIPE_PRO_PLAN_ID ids) then ("PRO", 2000%Z)
  else if isPlan planId (STRIPE_ENTERPRISE_PLAN_ID ids)
       then ("ENTERPRISE", 10000%Z)
  else ("FREE", 100%Z).

(** [prisma.user.findUnique({ where: { stripeCustomerId } })] *)
Definition userOfCustomer (byCustomer : string -> option Id)
    (customerId : string) (a : Accounts) : option User :=
  match byCustomer customerId with
  | Some id => acc_users a !! id
  | None => None
  end.

(** [prisma.user.update({ where: { id }, data: { subscriptionTier,
      messageLimit, subscriptionEnds } })] *)
Definition setPlan (id : Id) (tier : string) (limit : Z) (ends : option nat)
    (a : Accounts) : Res unit * Accounts :=
  match acc_users a !! id with
  | Some u =>
      (Ok tt,
       mkAccounts (<[id := mkUser (u_id u) (messageCount u) limit]> (acc_users a))
                  (<[id := mkPlan tier ends]> (acc_plans a)))
  | None => (Thrown (PrismaError "P2025"), a)
  end.

Definition handleSubscriptionChange (ids : PlanIds)
    (byCustomer : string -> option Id) (subscription : Subscription)
    (a : Accounts) : Res unit * Accounts :=
  match userOfCustomer byCustomer (customer subscription) a with
  | None => (Ok tt, a)
  | Some user =>
      let '(tier, limit) := tierOf ids (priceId subscription) in
      let ends := current_period_end subscription * 1000 in
      setPlan (u_id user) tier limit
              (if String.eqb (sub_status subscription) "active"
               then Some ends else None)
              a
  end.

Definition handleSubscriptionCancelled (byCustomer : string -> option Id)
    (subscription : Subscription) (a : Accounts) : Res unit * Accounts :=
  match userOfCustomer byCustomer (customer subscription) a with
  | None => (Ok tt, a)
  | Some user => setPlan (u_id user) "FREE" 100%Z None a
  end.

Definition handleWebhookEvent (ids : PlanIds)
    (byCustomer : string -> option Id) (event : StripeEvent) (a : Accounts)
  : Res unit * Accounts :=
  match event with
  | SubscriptionCreated s | SubscriptionUpdated s =>
      handleSubscriptionChange ids byCustomer s a
  | SubscriptionDeleted s => handleSubscriptionCancelled byCustomer s a
  | InvoicePaymentSucceeded _ => (Ok tt, a)
  | InvoicePaymentFailed _ => (Ok tt, a)
  | OtherEvent _ => (Ok tt, a)
  end.

(** The store with the user table as the billing handlers left it. *)
Definition billed (a : Accounts) (w : World) : World :=
  with_db w (mkDB (acc_users a) (properties (db w)) (conversations (db w))
                  (messages (db w)) (nextId (db w))).

(** *** Readings used for the routes *)


(** The requests the route turns down before it touches anything. *)
Definition blankContent (reqContent : BodyValue) : bool :=
  match reqContent with
  | Absent | NotText _ => true
  | Text text => String.eqb text EmptyString
                 || String.eqb (Js.trim text) EmptyString
  end.

(** The first word of what follows [Bearer ] in a header. *)
Definition bearerToken (rest : string) : option string :=
  JsText.at_index (JsText.split " " rest) 0.

(** *** More concrete cases *)

Module Cases.

(** The channel provider rejects every send. *)
Definition noChannel : Env :=
  mkEnv "+15550000"
        (fun _ _ _ => None)
        (fun _ => Some [(1 # 2)%Q])
        (fun _ _ => Some " Check-in is at 3pm. ")
        (fun _ _ _ _ => RpcData [Scenario.chunk])
        (fun _ => Some (JObj []))
        false.

(** The metadata of stored chunks does not parse. *)
Definition badMetadata : Env :=
  mkEnv "+15550000"
        (fun _ _ _ => Some "SM1")
        (fun _ => Some [(1 # 2)%Q])
        (fun _ _ => Some " Check-in is at 3pm. ")
        (fun _ _ _ _ => RpcData [Scenario.chunk])
        (fun _ => None)
        false.

(** The embedding provider knows one text only. *)
Definition oneEmbedding : Env :=
  mkEnv "+15550000"
        (fun _ _ _ => Some "SM1")
        (fun text => if String.eqb text "Check-in time: 3pm"
                     then Some [(1 # 2)%Q] else None)
        (fun _ _ => Some " Check-in is at 3pm. ")
        (fun _ _ _ _ => RpcData [Scenario.chunk])
        (fun _ => Some (JObj []))
        false.

(** A verifier that accepts one token, for user 7. *)
Definition verify (token : string) : JwtVerdict :=
  if String.eqb token "t0k3n" then JwtDecoded 7
  else JwtThrows "JsonWebTokenError".

Definition details : PropertyDetails :=
  mkDetails (Some "3pm") None (Some "") (Some "No parties") None None None
            (Some [("Pets?", "No")]) None.

(** A property reachable on a number written with a leading plus and
    a space. *)
Definition annex : Property :=
  mkProperty 2 "Annex" "+1 5550101" 7 None.

Definition twoListings : World :=
  mkWorld (mkDB {[ 7%nat := Scenario.host 0 100 ]} [Scenario.villa; annex]
                [] [] 100) [] 0.

(** Two properties' chunks in the index. *)
Definition indexed : VectorTable :=
  mkVectorTable
    [mkVectorEmbedding 0 1 "Check-in time: 2pm" [] JNull;
     mkVectorEmbedding 1 2 "House rules: quiet" [] JNull]
    2.

(** Twelve messages in conversation 50, and the last ten of them. *)
Definition twelve : list Message :=
  List.map (fun i => mkMessage i 50 "What time is check-in?" (Nat.even i))
           (List.seq 0 12).

Definition longTalk : World :=
  mkWorld (mkDB {[ 7%nat := Scenario.host 0 100 ]} [Scenario.villa]
                [Scenario.talk] twelve 100) [] 5.

Definition recentTalk : World :=
  mkWorld (mkDB {[ 7%nat := Scenario.host 0 100 ]} [Scenario.villa]
                [Scenario.talk] (List.skipn 2 twelve) 100) [] 5.

Definition plans : PlanIds :=
  mkPlanIds (Some "price_starter") (Some "price_pro") None.

(** The customer index of a deployment whose only account is user 7. *)
Definition byCustomer (customerId : string) : option Id :=
  if String.eqb customerId "cus_7" then Some 7%nat else None.


End Cases.

(** ** Proof steps *)

(** One awaited store call: expose the call and project the records. *)
Ltac store_step :=
  cbn [bind await run];
  unfold Prisma.message_create, Prisma.user_increment, Prisma.conversation_touch;
  cbn [bind await run with_db with_outbox db users properties conversations
       messages nextId outbox now c_id m_id u_id messageCount messageLimit].

Ltac conjuncts := repeat match goal with |- _ /\ _ => split end.

Ltac labels_differ :=
  let x := fresh in let y := fresh in let H := fresh in
  intros x y H; simpl in H; discriminate H.

(** ** Running programs: the laws of [run] *)

Section RunLaws.

Context {A B : Type}.

Lemma run_bind (p : Prog A) (f : A -> Prog B) (w : World) :
  run (bind p f) w =
  match run p w with
  | (Ok a, w') => run (f a) w'
  | (Thrown e, w') => (Thrown e, w')
  end.
Proof.
  revert w.
  induction p as [a | e | X op k IHk h IHh]; intros w; simpl; try reflexivity.
  destruct (op w) as [[x | e] w']; [apply IHk | apply IHh].
Qed.

Lemma run_try_catch (p : Prog A) (handler : Exn -> Prog A) (w : World) :
  run (try_catch p handler) w =
  match run p w with
  | (Ok a, w') => (Ok a, w')
  | (Thrown e, w') => run (handler e) w'
  end.
Proof.
  revert w.
  induction p as [a | e | X op k IHk h IHh]; intros w; simpl; try reflexivity.
  destruct (op w) as [[x | e] w']; [apply IHk | apply IHh].
Qed.

(** [catch (error) { throw error }] changes nothing. *)
Lemma run_rethrow (p : Prog A) (w : World) :
  run (try_catch p Throw) w = run p w.
Proof.
  rewrite run_try_catch.
  destruct (run p w) as [[a | e] w']; reflexivity.
Qed.

(** [run] is [step] repeated until the task has finished. *)
Lemma run_step (p : Prog A) (w : World) :
  run p w = run (fst (step p w)) (snd (step p w)).
Proof.
  destruct p as [a | e | X op k h]; simpl; try reflexivity.
  destruct (op w) as [[x | e] w']; reflexivity.
Qed.

Lemma run_await (op : Action A) (w : World) :
  run (await op) w = op w.
Proof.
  unfold await. simpl. destruct (op w) as [[x | e] w']; reflexivity.
Qed.

End RunLaws.

(** A task that takes every turn runs as [run] does; the other task
    does not move. *)
Lemma interleave_first_alone {A B} (n : nat) (p : Prog A) (q : Prog B)
    (w : World) :
  snd (fst (interleave (repeat true n) p q w)) = q
  /\ run (fst (fst (interleave (repeat true n) p q w)))
         (snd (interleave (repeat true n) p q w))
     = run p w.
Proof.
  revert p w. induction n as [| n IH]; intros p w; simpl.
  - split; reflexivity.
  - destruct (step p w) as [p' w'] eqn:Hstep.
    destruct (IH p' w') as [Hq Hrun]. split; [exact Hq |].
    rewrite Hrun, (run_step p w), Hstep. reflexivity.
Qed.

(** ** The string primitives on small inputs *)

Example replace_strips_the_prefix :
  Js.replace "whatsapp:" "" "whatsapp:+15550199" = "+15550199".
Proof. reflexivity. Qed.

Example replace_without_occurrence :
  Js.replace "whatsapp:" "" "+15550199" = "+15550199".
Proof. reflexivity. Qed.

Example replace_first_occurrence_only :
  Js.replace "ab" "-" "xabyab" = "x-yab".
Proof. reflexivity. Qed.

Example trim_both_ends :
  Js.trim " Check-in is at 3pm. " = "Check-in is at 3pm.".
Proof. reflexivity. Qed.

Example trim_blank : Js.trim ("  " +:+ Js.nl) = "".
Proof. reflexivity. Qed.

Example join_three : Js.join ", " ["a"; "b"; "c"] = "a, b, c".
Proof. reflexivity. Qed.

Example whatsapp_is_idempotent :
  whatsapp (whatsapp "+15550199") = "whatsapp:+15550199".
Proof. reflexivity. Qed.

(** ** The leaf services, run to completion *)

Section LeafRuns.

Variable env : Env.

Lemma sendWhatsAppMessage_run (to text : string) (w : World) :
  run (sendWhatsAppMessage env to text) w =
  match twilio_messages_create env ("whatsapp:" +:+ TWILIO_PHONE_NUMBER env)
                               (whatsapp to) text with
  | Some sid =>
      (Ok sid,
       with_outbox w (outbox w ++
         [mkSms ("whatsapp:" +:+ TWILIO_PHONE_NUMBER env) (whatsapp to) text]))
  | None => (Thrown (ProviderError "twilio"), w)
  end.
Proof.
  unfold sendWhatsAppMessage. rewrite run_rethrow.
  cbn [bind await run]. unfold messages_create.
  destruct (twilio_messages_create env _ _ _); reflexivity.
Qed.

Lemma sendMessage_run (from to text : string) (w : World) :
  run (sendMessage env from to text) w =
  match twilio_messages_create env (whatsapp from) (whatsapp to) text with
  | Some sid =>
      (Ok sid,
       with_outbox w (outbox w ++ [mkSms (whatsapp from) (whatsapp to) text]))
  | None => (Thrown (JsError "Failed to send message via Twilio"), w)
  end.
Proof.
  unfold sendMessage. rewrite run_try_catch.
  cbn [bind await run]. unfold messages_create.
  destruct (twilio_messages_create env _ _ _); reflexivity.
Qed.

Lemma generateEmbedding_run (text : string) (w : World) :
  run (generateEmbedding env text) w =
  match openai_createEmbedding env text with
  | Some v => (Ok v, w)
  | None => (Thrown (JsError "Failed to generate embedding"), w)
  end.
Proof.
  unfold generateEmbedding. rewrite run_try_catch.
  cbn [bind await run]. unfold createEmbedding.
  destruct (openai_createEmbedding env text); reflexivity.
Qed.

Lemma searchSimilar_run (query : string) (pid : Id) (limit : nat)
    (threshold : Q) (w : World) :
  run (searchSimilar env query pid limit threshold) w =
  (searchOutcome env query pid limit threshold, w).
Proof.
  unfold searchSimilar, searchOutcome.
  rewrite run_rethrow, run_bind, generateEmbedding_run.
  destruct (openai_createEmbedding env query) as [v |]; [| reflexivity].
  cbn [bind await run]. unfold rpc_match_embeddings.
  destruct (supabase_match_embeddings env v threshold limit pid)
    as [message | data]; [reflexivity |].
  destruct (formatResults env data); reflexivity.
Qed.

End LeafRuns.

(** ** The assistant, run to completion *)

Section AssistantRuns.

Variable env : Env.

(** [processMessage] never rejects and writes nothing. *)
Lemma processMessage_run (pid cid : Id) (message : string) (w : World) :
  run (processMessage env pid cid message) w =
  (Ok (replyOf env (db w) pid cid message), w).
Proof.
  unfold processMessage, replyOf. rewrite run_try_catch.
  cbn [bind await run]. unfold Prisma.property_findUnique, Prisma.read.
  destruct (List.find _ (properties (db w))) as [property |]; [| reflexivity].
  cbn [bind await run]. unfold Prisma.message_findMany, Prisma.read.
  rewrite run_bind, searchSimilar_run.
  destruct (searchOutcome env message pid 3 (6 # 10)%Q) as [docs | e];
    [| reflexivity].
  cbn [bind await run]. unfold createChatCompletion.
  destruct (openai_createChatCompletion env _ _); reflexivity.
Qed.

(** A failure of retrieval makes the reply the apology, whatever the
    completion provider would have answered. *)
Lemma replyOf_search_failed (d : DB) (pid cid : Id) (message : string) (e : Exn) :
  searchOutcome env message pid 3 (6 # 10)%Q = Thrown e ->
  replyOf env d pid cid message = apology.
Proof.
  intros H. unfold replyOf. rewrite H.
  destruct (List.find _ (properties d)); reflexivity.
Qed.

Lemma replyOf_completion_failed (d : DB) (pid cid : Id) (message : string) :
  (forall system user, openai_createChatCompletion env system user = None) ->
  replyOf env d pid cid message = apology.
Proof.
  intros H. unfold replyOf.
  destruct (List.find _ (properties d)); [| reflexivity].
  destruct (searchOutcome env message pid 3 (6 # 10)%Q); [| reflexivity].
  rewrite H. reflexivity.
Qed.

End AssistantRuns.

(** ** The inbound pipeline, run to completion *)

Section PipelineRuns.

Variable env : Env.
Variable md : MessageData.
Variable w : World.

Lemma find_none_existsb {X} (f : X -> bool) (l : list X) :
  List.find f l = None -> existsb f l = false.
Proof.
  induction l as [| x l IH]; simpl; [reflexivity |].
  destruct (f x); [discriminate | exact IH].
Qed.

Lemma pim_unroutable :
  resolve md w = None ->
  run (processIncomingMessage env md) w =
  (Ok (Failure "Property not found"), w).
Proof.
  unfold resolve, lineOf. intros Hp.
  unfold processIncomingMessage. rewrite run_rethrow.
  cbn [bind await run]. unfold Prisma.property_findFirst, Prisma.read.
  rewrite Hp. reflexivity.
Qed.

Lemma pim_no_account (p : Property) :
  resolve md w = Some p ->
  users (db w) !! userId p = None ->
  run (processIncomingMessage env md) w =
  (Thrown (TypeError
     "Cannot read properties of null (reading 'messageCount')"), w).
Proof.
  unfold resolve, lineOf. intros Hp Hu.
  unfold processIncomingMessage. rewrite run_rethrow.
  cbn [bind await run]. unfold Prisma.property_findFirst, Prisma.read.
  rewrite Hp. cbn [bind await run].
  unfold Prisma.user_findUnique, Prisma.read. rewrite Hu. reflexivity.
Qed.

Lemma pim_limit_reached (p : Property) (u : User) :
  resolve md w = Some p ->
  users (db w) !! userId p = Some u ->
  (messageCount u >= messageLimit u)%Z ->
  run (processIncomingMessage env md) w =
  match twilio_messages_create env
          ("whatsapp:" +:+ TWILIO_PHONE_NUMBER env)
          (whatsapp (guestOf md)) limitNotice with
  | Some _ =>
      (Ok (Failure "Message limit reached"),
       with_outbox w (outbox w ++ [outgoing env (guestOf md) limitNotice]))
  | None => (Thrown (ProviderError "twilio"), w)
  end.
Proof.
  unfold resolve, lineOf, guestOf, outgoing. intros Hp Hu Hge.
  unfold processIncomingMessage. rewrite run_rethrow.
  cbn [bind await run]. unfold Prisma.property_findFirst, Prisma.read.
  rewrite Hp. cbn [bind await run].
  unfold Prisma.user_findUnique, Prisma.read. rewrite Hu.
  cbn [bind await run].
  replace (messageCount u >=? messageLimit u)%Z with true
    by (symmetry; apply Z.geb_le; lia).
  rewrite run_bind, sendWhatsAppMessage_run.
  destruct (twilio_messages_create env _ _ _); reflexivity.
Qed.

(** The admitted path: the final store, the reply and the result. *)
Lemma pim_admitted (p : Property) (u : User) :
  resolve md w = Some p ->
  users (db w) !! userId p = Some u ->
  (messageCount u < messageLimit u)%Z ->
  exists (mid : Id) (d2 : DB) (w3 : World),
    let conv := conversationFor md w p in
    let reply := replyOf env d2 (p_id p) (c_id conv) (Body md) in
    users (db w3) = <[userId p := consume 2 u]> (users (db w))
    /\ properties (db w3) = properties (db w)
    /\ conversations (db w3) = conversationsAfter md w p
    /\ messages (db w3) =
         messages (db w) ++ [mkMessage mid (c_id conv) (Body md) true;
                             mkMessage (S mid) (c_id conv) reply false]
    /\ outbox w3 = outbox w
    /\ run (processIncomingMessage env md) w =
       match twilio_messages_create env
               ("whatsapp:" +:+ TWILIO_PHONE_NUMBER env)
               (whatsapp (guestOf md)) reply with
       | Some _ =>
           (Ok (Success (p_id p) (c_id conv) mid),
            with_outbox w3 (outbox w ++ [outgoing env (guestOf md) reply]))
       | None => (Thrown (ProviderError "twilio"), w3)
       end.
Proof.
  unfold resolve, lineOf. intros Hp Hu Hlt.
  unfold processIncomingMessage. rewrite run_rethrow.
  cbn [bind await run]. unfold Prisma.property_findFirst, Prisma.read.
  rewrite Hp. cbn [bind await run].
  unfold Prisma.user_findUnique, Prisma.read. rewrite Hu.
  cbn [bind await run].
  replace (messageCount u >=? messageLimit u)%Z with false
    by (symmetry; rewrite Z.geb_leb; apply Z.leb_gt; lia).
  cbn [bind await run]. unfold Prisma.conversation_findFirst, Prisma.read.
  unfold conversationFor, conversationsAfter, thread, newConversation, guestOf.
  set (guest := Js.replace "whatsapp:" "" (From md)).
  destruct (List.find (Prisma.same_pair (p_id p) guest)
                      (conversations (db w))) as [c |] eqn:Hfind.
  - store_step. rewrite Hu. store_step.
    rewrite run_bind, processMessage_run. store_step.
    rewrite lookup_insert_eq. store_step.
    rewrite run_bind, sendWhatsAppMessage_run.
    set (m1 := mkMessage (nextId (db w)) (c_id c) (Body md) true).
    set (d2 := mkDB (<[userId p := consume 1 u]> (users (db w)))
                    (properties (db w)) (conversations (db w))
                    (messages (db w) ++ [m1]) (S (nextId (db w)))).
    exists (nextId (db w)), d2.
    exists (mkWorld
              (mkDB (<[userId p := consume 1 (consume 1 u)]> (users d2))
                    (properties d2) (conversations d2)
                    (messages d2 ++
                       [mkMessage (nextId d2) (c_id c)
                          (replyOf env d2 (p_id p) (c_id c) (Body md)) false])
                    (S (nextId d2)))
              (outbox w) (now w)).
    cbn zeta. unfold with_db, with_outbox. store_step.
    conjuncts; revgoals.
    + destruct (twilio_messages_create env _ _ _); reflexivity.
    + reflexivity.
    + subst d2. cbn [db messages]. rewrite <- app_assoc. reflexivity.
    + reflexivity.
    + reflexivity.
    + subst d2. cbn [db users]. rewrite insert_insert_eq. unfold consume.
      cbn [u_id messageCount messageLimit]. do 2 f_equal. lia.
  - cbn [bind await run]. unfold Prisma.conversation_create. cbn zeta.
    rewrite (find_none_existsb _ _ Hfind), andb_false_r.
    store_step. rewrite Hu. store_step.
    rewrite run_bind, processMessage_run. store_step.
    rewrite lookup_insert_eq. store_step.
    rewrite run_bind, sendWhatsAppMessage_run.
    set (c := mkConversation (nextId (db w)) (p_id p) guest
                (Js.or_else (ProfileName md) "Guest") (now w)).
    set (m1 := mkMessage (S (nextId (db w))) (c_id c) (Body md) true).
    set (d2 := mkDB (<[userId p := consume 1 u]> (users (db w)))
                    (properties (db w)) (conversations (db w) ++ [c])
                    (messages (db w) ++ [m1]) (S (S (nextId (db w))))).
    exists (S (nextId (db w))), d2.
    exists (mkWorld
              (mkDB (<[userId p := consume 1 (consume 1 u)]> (users d2))
                    (properties d2) (conversations d2)
                    (messages d2 ++
                       [mkMessage (nextId d2) (c_id c)
                          (replyOf env d2 (p_id p) (c_id c) (Body md)) false])
                    (S (nextId d2)))
              (outbox w) (now w)).
    cbn zeta. unfold with_db, with_outbox. store_step.
    conjuncts; revgoals.
    + destruct (twilio_messages_create env _ _ _); reflexivity.
    + reflexivity.
    + subst d2. cbn [db messages]. rewrite <- app_assoc. reflexivity.
    + reflexivity.
    + reflexivity.
    + subst d2. cbn [db users]. rewrite insert_insert_eq. unfold consume.
      cbn [u_id messageCount messageLimit]. do 2 f_equal. lia.
Qed.

End PipelineRuns.

(** ** Properties of the pipeline *)

Lemma run_result_after {A} (p : Prog A) (w : World) :
  run p w = (result p w, after p w).
Proof. unfold result, after. destruct (run p w); reflexivity. Qed.

(** The webhook answers the channel with the empty TwiML document
    whatever the pipeline did. *)
Lemma postTwilio_always_acknowledges (env : Env) (md : MessageData) (w : World) :
  run (postTwilio env md) w =
  (Ok twiml, after (processIncomingMessage env md) w).
Proof.
  unfold postTwilio, after.
  rewrite run_try_catch, run_bind.
  destruct (run (processIncomingMessage env md) w) as [[o | e] w'];
    reflexivity.
Qed.

(** C9.  An event whose recipient address matches no property is
    dropped: the pipeline resolves to the "Property not found" result
    with the store and the outbox untouched (no write, no reply), and
    the webhook still answers with the empty TwiML acknowledgment. *)
Theorem unroutable_event_is_dropped (env : Env) (md : MessageData) (w : World) :
  resolve md w = None ->
  run (processIncomingMessage env md) w = (Ok (Failure "Property not found"), w)
  /\ run (postTwilio env md) w = (Ok twiml, w).
Proof.
  intros Hnone.
  pose proof (pim_unroutable env md w Hnone) as Hrun.
  split; [exact Hrun |].
  rewrite postTwilio_always_acknowledges. unfold after. rewrite Hrun.
  reflexivity.
Qed.

Lemma unroutable_event_is_dropped_witness :
  run (processIncomingMessage Scenario.healthy Scenario.stray)
      (Scenario.world 0 100)
  = (Ok (Failure "Property not found"), Scenario.world 0 100)
  /\ run (postTwilio Scenario.healthy Scenario.stray) (Scenario.world 0 100)
     = (Ok twiml, Scenario.world 0 100).
Proof.
  apply (unroutable_event_is_dropped Scenario.healthy Scenario.stray
           (Scenario.world 0 100)).
  reflexivity.
Defined.

(** C4.  When the owning account has [messageCount >= messageLimit], the
    only thing the pipeline does is hand the fixed limit notice to the
    channel provider: the store is unchanged (no conversation, no
    message, same counters) whether or not the provider accepts the
    notice, and when it does the notice is the one message added to the
    outbox and the result is "Message limit reached". *)
Theorem over_limit_event_is_rejected (env : Env) (md : MessageData) (w : World)
    (p : Property) (u : User) :
  resolve md w = Some p ->
  users (db w) !! userId p = Some u ->
  (messageCount u >= messageLimit u)%Z ->
  db (after (processIncomingMessage env md) w) = db w
  /\ (accepted env (outgoing env (guestOf md) limitNotice) ->
      run (processIncomingMessage env md) w =
      (Ok (Failure "Message limit reached"),
       with_outbox w (outbox w ++ [outgoing env (guestOf md) limitNotice])))
  /\ (~ accepted env (outgoing env (guestOf md) limitNotice) ->
      run (processIncomingMessage env md) w =
      (Thrown (ProviderError "twilio"), w)).
Proof.
  intros Hp Hu Hge.
  pose proof (pim_limit_reached env md w p u Hp Hu Hge) as Hrun.
  unfold after, accepted, outgoing in *. cbn [sms_from sms_to sms_body].
  destruct (twilio_messages_create env _ _ _) as [sid |] eqn:Hsend;
    rewrite Hrun; repeat split.
  - intros Hno. exfalso. apply Hno. eexists; reflexivity.
  - intros [sid Hsid]. discriminate.
Qed.

(** Scenario B: [messageCount = 100], [messageLimit = 100]. *)
Lemma over_limit_event_is_rejected_witness :
  let pim := processIncomingMessage Scenario.healthy Scenario.hello in
  let w := Scenario.world 100 100 in
  db (after pim w) = db w
  /\ users (db (after pim w)) !! 7%nat = Some (Scenario.host 100 100)
  /\ conversations (db (after pim w)) = []
  /\ messages (db (after pim w)) = []
  /\ result pim w = Ok (Failure "Message limit reached")
  /\ List.map sms_body (outbox (after pim w)) = [limitNotice].
Proof.
  cbn zeta.
  destruct (over_limit_event_is_rejected Scenario.healthy Scenario.hello
              (Scenario.world 100 100) Scenario.villa (Scenario.host 100 100)
              eq_refl eq_refl ltac:(simpl; lia)) as (Hdb & Hsent & _).
  specialize (Hsent ltac:(eexists; reflexivity)).
  unfold after, result. rewrite Hsent.
  conjuncts; reflexivity.
Defined.

(** A limit of zero rejects every event of an account whose counter is
    not negative: the store is left as it was. *)
Lemma zero_limit_is_rejected (env : Env) (md : MessageData) (w : World)
    (p : Property) (u : User) :
  resolve md w = Some p ->
  users (db w) !! userId p = Some u ->
  messageLimit u = 0%Z ->
  (0 <= messageCount u)%Z ->
  db (after (processIncomingMessage env md) w) = db w
  /\ (accepted env (outgoing env (guestOf md) limitNotice) ->
      run (processIncomingMessage env md) w =
      (Ok (Failure "Message limit reached"),
       with_outbox w (outbox w ++ [outgoing env (guestOf md) limitNotice]))).
Proof.
  intros Hp Hu Hzero Hcount.
  assert (Hge : (messageCount u >= messageLimit u)%Z) by lia.
  pose proof (pim_limit_reached env md w p u Hp Hu Hge) as Hrun.
  unfold after, accepted, outgoing in *. cbn [sms_from sms_to sms_body].
  destruct (twilio_messages_create env _ _ _) as [sid |] eqn:Hsend;
    rewrite Hrun; split; try reflexivity.
  intros [sid Hsid]. discriminate.
Qed.

(** C5.  When the property's owning account row is missing,
    [user.messageCount] is read on [null]: the pipeline rejects with a
    TypeError before anything is sent or written, so the guest gets no
    notice; the webhook turns the rejection into its usual
    acknowledgment. *)
Theorem missing_account_throws (env : Env) (md : MessageData) (w : World)
    (p : Property) :
  resolve md w = Some p ->
  users (db w) !! userId p = None ->
  run (processIncomingMessage env md) w =
  (Thrown (TypeError "Cannot read properties of null (reading 'messageCount')"),
   w)
  /\ outbox (after (processIncomingMessage env md) w) = outbox w
  /\ run (postTwilio env md) w = (Ok twiml, w).
Proof.
  intros Hp Hu.
  pose proof (pim_no_account env md w p Hp Hu) as Hrun.
  split; [exact Hrun |].
  rewrite postTwilio_always_acknowledges. unfold after. rewrite Hrun.
  split; reflexivity.
Qed.

Lemma missing_account_throws_witness :
  run (processIncomingMessage Scenario.healthy Scenario.hello) Scenario.orphaned
  = (Thrown (TypeError "Cannot read properties of null (reading 'messageCount')"),
     Scenario.orphaned)
  /\ outbox (after (processIncomingMessage Scenario.healthy Scenario.hello)
                   Scenario.orphaned) = []
  /\ run (postTwilio Scenario.healthy Scenario.hello) Scenario.orphaned
     = (Ok twiml, Scenario.orphaned).
Proof.
  apply (missing_account_throws Scenario.healthy Scenario.hello
           Scenario.orphaned Scenario.villa); reflexivity.
Defined.

(** The store after an admitted event does not depend on whether the
    channel provider accepted the reply. *)
Lemma pim_admitted_store (env : Env) (md : MessageData) (w : World)
    (p : Property) (u : User) :
  resolve md w = Some p ->
  users (db w) !! userId p = Some u ->
  (messageCount u < messageLimit u)%Z ->
  exists (mid : Id) (d2 : DB),
    let w' := after (processIncomingMessage env md) w in
    let conv := conversationFor md w p in
    let reply := replyOf env d2 (p_id p) (c_id conv) (Body md) in
    users (db w') = <[userId p := consume 2 u]> (users (db w))
    /\ properties (db w') = properties (db w)
    /\ conversations (db w') = conversationsAfter md w p
    /\ messages (db w') =
         messages (db w) ++ [mkMessage mid (c_id conv) (Body md) true;
                             mkMessage (S mid) (c_id conv) reply false]
    /\ (accepted env (outgoing env (guestOf md) reply) ->
        result (processIncomingMessage env md) w =
          Ok (Success (p_id p) (c_id conv) mid)
        /\ outbox w' = outbox w ++ [outgoing env (guestOf md) reply]).
Proof.
  intros Hp Hu Hlt.
  destruct (pim_admitted env md w p u Hp Hu Hlt)
    as (mid & d2 & w3 & Husers & Hprops & Hconvs & Hmsgs & Hout & Hrun).
  exists mid, d2. cbn zeta in *.
  unfold after, result, accepted, outgoing in *.
  cbn [sms_from sms_to sms_body].
  rewrite Hrun.
  destruct (twilio_messages_create env _ _ _) as [sid |];
    cbn [fst snd with_outbox db outbox]; conjuncts; try assumption.
  - intros _. split; reflexivity.
  - intros [sid Hsid]. discriminate.
Qed.

(** C10.  An admitted event that finds no conversation for its
    (property, guest) pair appends exactly one conversation row for that
    pair; its guest name is the event's display name when that is a
    non-empty string, and "Guest" when the display name is missing or
    empty. *)
Theorem new_conversation_guest_name (env : Env) (md : MessageData) (w : World)
    (p : Property) (u : User) :
  resolve md w = Some p ->
  users (db w) !! userId p = Some u ->
  (messageCount u < messageLimit u)%Z ->
  thread md p w = None ->
  exists c : Conversation,
    conversations (db (after (processIncomingMessage env md) w))
      = conversations (db w) ++ [c]
    /\ propertyId c = p_id p
    /\ guestPhoneNumber c = guestOf md
    /\ (forall n, ProfileName md = Some n -> n <> "" -> guestName c = n)
    /\ (ProfileName md = None \/ ProfileName md = Some "" ->
        guestName c = "Guest").
Proof.
  intros Hp Hu Hlt Hnew.
  destruct (pim_admitted_store env md w p u Hp Hu Hlt)
    as (mid & d2 & _ & _ & Hconvs & _).
  unfold conversationsAfter in Hconvs. rewrite Hnew in Hconvs.
  exists (newConversation md w p). conjuncts; try reflexivity.
  - exact Hconvs.
  - intros n Hn Hne. cbn [newConversation guestName]. rewrite Hn.
    cbn [Js.or_else].
    destruct (String.eqb_spec n ""); [contradiction | reflexivity].
  - intros [Hn | Hn]; cbn [newConversation guestName]; rewrite Hn; reflexivity.
Qed.

Lemma new_conversation_guest_name_witness :
  exists c : Conversation,
    conversations (db (after (processIncomingMessage Scenario.healthy
                                Scenario.anonymous) (Scenario.world 0 100)))
      = [c]
    /\ guestName c = "Guest".
Proof.
  destruct (new_conversation_guest_name Scenario.healthy Scenario.anonymous
              (Scenario.world 0 100) Scenario.villa (Scenario.host 0 100)
              eq_refl eq_refl ltac:(simpl; lia) eq_refl)
    as (c & Hconvs & _ & _ & _ & Hdefault).
  exists c. split; [exact Hconvs | apply Hdefault; left; reflexivity].
Defined.

(** C2.  An admitted exchange that runs to completion adds exactly two
    units to the owning account's [messageCount] (one after the guest
    message is stored, one after the reply is stored), stores both
    messages and dispatches the reply; every run that resolves to the
    success result is such an exchange; an event that is not admitted,
    and every run that resolves to a rejection, leaves the store, and so
    every counter, unchanged. *)
Theorem exchange_consumes_two_units (env : Env) (md : MessageData) (w : World) :
  let pim := processIncomingMessage env md in
  (forall p u,
     resolve md w = Some p ->
     users (db w) !! userId p = Some u ->
     (messageCount u < messageLimit u)%Z ->
     (forall text, accepted env (outgoing env (guestOf md) text)) ->
     exists cid mid reply,
       result pim w = Ok (Success (p_id p) cid mid)
       /\ users (db (after pim w)) = <[userId p := consume 2 u]> (users (db w))
       /\ messages (db (after pim w)) =
            messages (db w) ++ [mkMessage mid cid (Body md) true;
                                mkMessage (S mid) cid reply false]
       /\ outbox (after pim w) = outbox w ++ [outgoing env (guestOf md) reply])
  /\ (forall pid cid mid,
        result pim w = Ok (Success pid cid mid) ->
        exists p u,
          resolve md w = Some p
          /\ users (db w) !! userId p = Some u
          /\ (messageCount u < messageLimit u)%Z
          /\ users (db (after pim w)) =
               <[userId p := consume 2 u]> (users (db w)))
  /\ (~ admitted md w -> db (after pim w) = db w)
  /\ (forall e, result pim w = Ok (Failure e) -> db (after pim w) = db w).
Proof.
  cbn zeta.
  assert (Hrejected : ~ admitted md w ->
            db (after (processIncomingMessage env md) w) = db w).
  { intros Hnot. unfold after.
    destruct (resolve md w) as [p |] eqn:Hp.
    2: { rewrite (pim_unroutable env md w Hp). reflexivity. }
    destruct (users (db w) !! userId p) as [u |] eqn:Hu.
    2: { rewrite (pim_no_account env md w p Hp Hu). reflexivity. }
    destruct (Z.lt_ge_cases (messageCount u) (messageLimit u)) as [Hlt | Hge].
    - exfalso. apply Hnot. exists p, u. conjuncts; assumption.
    - rewrite (pim_limit_reached env md w p u Hp Hu ltac:(lia)).
      destruct (twilio_messages_create env _ _ _); reflexivity. }
  conjuncts.
  - intros p u Hp Hu Hlt Hsend.
    destruct (pim_admitted_store env md w p u Hp Hu Hlt)
      as (mid & d2 & Husers & _ & _ & Hmsgs & Hdone).
    cbn zeta in *.
    destruct (Hdone (Hsend _)) as [Hres Hout].
    eexists _, mid, _. conjuncts; eassumption.
  - intros pid cid mid Hres.
    destruct (resolve md w) as [p |] eqn:Hp.
    2: { unfold result in Hres. rewrite (pim_unroutable env md w Hp) in Hres.
         discriminate. }
    destruct (users (db w) !! userId p) as [u |] eqn:Hu.
    2: { unfold result in Hres. rewrite (pim_no_account env md w p Hp Hu) in Hres.
         discriminate. }
    destruct (Z.lt_ge_cases (messageCount u) (messageLimit u)) as [Hlt | Hge].
    + exists p, u. conjuncts; try assumption; try reflexivity.
      destruct (pim_admitted_store env md w p u Hp Hu Hlt)
        as (mid' & d2 & Husers & _).
      exact Husers.
    + unfold result in Hres.
      rewrite (pim_limit_reached env md w p u Hp Hu ltac:(lia)) in Hres.
      destruct (twilio_messages_create env _ _ _); discriminate.
  - exact Hrejected.
  - intros e Hres. apply Hrejected. intros (p & u & Hp & Hu & Hlt).
    destruct (pim_admitted env md w p u Hp Hu Hlt)
      as (mid & d2 & w3 & _ & _ & _ & _ & _ & Hrun).
    cbn zeta in Hrun. unfold result in Hres. rewrite Hrun in Hres.
    destruct (twilio_messages_create env _ _ _); discriminate.
Qed.

(** Scenario A: [messageCount = 99], [messageLimit = 100]. *)
Lemma exchange_consumes_two_units_witness :
  let pim := processIncomingMessage Scenario.healthy Scenario.hello in
  let w := Scenario.world 99 100 in
  users (db (after pim w)) !! 7%nat = Some (Scenario.host 101 100)
  /\ length (messages (db (after pim w))) = 2%nat
  /\ length (outbox (after pim w)) = 1%nat
  /\ exists cid mid, result pim w = Ok (Success 1 cid mid).
Proof.
  cbn zeta.
  destruct (exchange_consumes_two_units Scenario.healthy Scenario.hello
              (Scenario.world 99 100)) as [Hdone _].
  destruct (Hdone Scenario.villa (Scenario.host 99 100) eq_refl eq_refl
              ltac:(simpl; lia)
              ltac:(intros text; eexists; reflexivity))
    as (cid & mid & reply & Hres & Husers & Hmsgs & Hout).
  rewrite Husers, Hmsgs, Hout. conjuncts.
  - apply lookup_insert_eq.
  - reflexivity.
  - reflexivity.
  - exists cid, mid. exact Hres.
Defined.

(** C3.  When the completion provider fails, an admitted event still
    completes: the reply is the fixed apology, it is stored as a
    message from the host after the guest's message, the second unit is
    consumed, the apology is dispatched to the guest and the pipeline
    resolves to the success result. *)
Theorem completion_failure_degrades (env : Env) (md : MessageData) (w : World)
    (p : Property) (u : User) :
  resolve md w = Some p ->
  users (db w) !! userId p = Some u ->
  (messageCount u < messageLimit u)%Z ->
  (forall system user, openai_createChatCompletion env system user = None) ->
  accepted env (outgoing env (guestOf md) apology) ->
  let pim := processIncomingMessage env md in
  exists cid mid,
    result pim w = Ok (Success (p_id p) cid mid)
    /\ messages (db (after pim w)) =
         messages (db w) ++ [mkMessage mid cid (Body md) true;
                             mkMessage (S mid) cid apology false]
    /\ users (db (after pim w)) = <[userId p := consume 2 u]> (users (db w))
    /\ outbox (after pim w) = outbox w ++ [outgoing env (guestOf md) apology].
Proof.
  intros Hp Hu Hlt Hdown Hsend. cbn zeta.
  destruct (pim_admitted_store env md w p u Hp Hu Hlt)
    as (mid & d2 & Husers & _ & _ & Hmsgs & Hdone).
  cbn zeta in *.
  rewrite (replyOf_completion_failed env d2 _ _ _ Hdown) in Hmsgs, Hdone.
  destruct (Hdone Hsend) as [Hres Hout].
  eexists _, mid. conjuncts; eassumption.
Qed.

Lemma completion_failure_degrades_witness :
  let pim := processIncomingMessage Scenario.noCompletion Scenario.hello in
  let w := Scenario.world 0 100 in
  exists cid mid,
    result pim w = Ok (Success 1 cid mid)
    /\ messages (db (after pim w)) =
         [mkMessage mid cid "What time is check-in?" true;
          mkMessage (S mid) cid apology false]
    /\ users (db (after pim w)) !! 7%nat = Some (Scenario.host 2 100)
    /\ List.map sms_body (outbox (after pim w)) = [apology].
Proof.
  cbn zeta.
  destruct (completion_failure_degrades Scenario.noCompletion Scenario.hello
              (Scenario.world 0 100) Scenario.villa (Scenario.host 0 100)
              eq_refl eq_refl ltac:(simpl; lia) ltac:(reflexivity)
              ltac:(eexists; reflexivity))
    as (cid & mid & Hres & Hmsgs & Husers & Hout).
  exists cid, mid. rewrite Hmsgs, Husers, Hout. conjuncts.
  - exact Hres.
  - reflexivity.
  - apply lookup_insert_eq.
  - reflexivity.
Defined.

(** *** Retrieval failures *)

Lemma retrieval_failure_propagates (env : Env) (query : string) (pid : Id) :
  retrievalProviderFails env query pid ->
  exists e, searchOutcome env query pid 3 (6 # 10)%Q = Thrown e.
Proof.
  unfold searchOutcome.
  intros [Hemb | (v & message & Hemb & Hrpc)]; rewrite Hemb.
  - eexists; reflexivity.
  - rewrite Hrpc. eexists; reflexivity.
Qed.

(** C1, as stated, fails: with the embedding provider down,
    [searchSimilar] rejects with the provider's failure, it does not
    resolve to the empty array; and no reply is generated, although the
    completion provider would answer: the reply is the apology. *)
Lemma searchSimilar_rejects_when_embeddings_down :
  openai_createEmbedding Scenario.noEmbeddings "What time is check-in?" = None
  /\ run (searchSimilar Scenario.noEmbeddings "What time is check-in?" 1 3
                        (6 # 10)%Q) (Scenario.world 0 100)
     = (Thrown (JsError "Failed to generate embedding"), Scenario.world 0 100)
  /\ result (searchSimilar Scenario.noEmbeddings "What time is check-in?" 1 3
                           (6 # 10)%Q) (Scenario.world 0 100)
     <> Ok []
  /\ (forall system user,
        openai_createChatCompletion Scenario.noEmbeddings system user
        = Some " Check-in is at 3pm. ")
  /\ result (processMessage Scenario.noEmbeddings 1 100
                             "What time is check-in?") (Scenario.world 0 100)
     = Ok apology.
Proof.
  conjuncts; try reflexivity. discriminate.
Qed.

(** C1, amended.  When the embedding provider or the vector store fails,
    [searchSimilar] rejects (the failure propagates);
    [processMessage] catches it and resolves to the fixed apology,
    whatever the completion provider would answer; the pipeline then
    goes on as for any reply: the apology is stored as a message from
    the host, the second unit is consumed, the apology is dispatched
    and the pipeline resolves to the success result. *)
Theorem retrieval_failure_degrades (env : Env) (md : MessageData) (w : World)
    (p : Property) (u : User) :
  resolve md w = Some p ->
  users (db w) !! userId p = Some u ->
  (messageCount u < messageLimit u)%Z ->
  retrievalProviderFails env (Body md) (p_id p) ->
  accepted env (outgoing env (guestOf md) apology) ->
  let pim := processIncomingMessage env md in
  (exists e, forall w0,
     run (searchSimilar env (Body md) (p_id p) 3 (6 # 10)%Q) w0
     = (Thrown e, w0))
  /\ (forall cid w0,
        run (processMessage env (p_id p) cid (Body md)) w0 = (Ok apology, w0))
  /\ exists cid mid,
       result pim w = Ok (Success (p_id p) cid mid)
       /\ messages (db (after pim w)) =
            messages (db w) ++ [mkMessage mid cid (Body md) true;
                                mkMessage (S mid) cid apology false]
       /\ users (db (after pim w)) = <[userId p := consume 2 u]> (users (db w))
       /\ outbox (after pim w) = outbox w ++ [outgoing env (guestOf md) apology].
Proof.
  intros Hp Hu Hlt Hfail Hsend. cbn zeta.
  destruct (retrieval_failure_propagates env _ _ Hfail) as [e He].
  conjuncts.
  - exists e. intros w0. rewrite searchSimilar_run, He. reflexivity.
  - intros cid w0. rewrite processMessage_run.
    rewrite (replyOf_search_failed env _ _ _ _ e He). reflexivity.
  - destruct (pim_admitted_store env md w p u Hp Hu Hlt)
      as (mid & d2 & Husers & _ & _ & Hmsgs & Hdone).
    cbn zeta in *.
    rewrite (replyOf_search_failed env d2 _ _ _ e He) in Hmsgs, Hdone.
    destruct (Hdone Hsend) as [Hres Hout].
    eexists _, mid. conjuncts; eassumption.
Qed.

Lemma retrieval_failure_degrades_witness :
  let pim := processIncomingMessage Scenario.noEmbeddings Scenario.hello in
  let w := Scenario.world 0 100 in
  exists cid mid,
    result pim w = Ok (Success 1 cid mid)
    /\ messages (db (after pim w)) =
         [mkMessage mid cid "What time is check-in?" true;
          mkMessage (S mid) cid apology false]
    /\ users (db (after pim w)) !! 7%nat = Some (Scenario.host 2 100)
    /\ List.map sms_body (outbox (after pim w)) = [apology].
Proof.
  cbn zeta.
  destruct (retrieval_failure_degrades Scenario.noEmbeddings Scenario.hello
              (Scenario.world 0 100) Scenario.villa (Scenario.host 0 100)
              eq_refl eq_refl ltac:(simpl; lia) ltac:(left; reflexivity)
              ltac:(eexists; reflexivity))
    as (_ & _ & cid & mid & Hres & Hmsgs & Husers & Hout).
  exists cid, mid. rewrite Hmsgs, Husers, Hout. conjuncts.
  - exact Hres.
  - reflexivity.
  - apply lookup_insert_eq.
  - reflexivity.
Defined.

(** ** The system prompt *)

Lemma append_inj_r (a x y : string) : a +:+ x = a +:+ y -> x = y.
Proof.
  induction a as [| c a IH]; intros H; [exact H |].
  change (String c (a +:+ x) = String c (a +:+ y)) in H.
  injection H as H. exact (IH H).
Qed.

Lemma append_empty_r (a : string) : a +:+ "" = a.
Proof.
  induction a as [| c a IH]; [reflexivity |].
  change (String c (a +:+ "") = String c a). f_equal. exact IH.
Qed.

Lemma detailLine_hit (label : string) (field : option string) (v : string) :
  label <> "" ->
  detailLine label field = label +:+ v ->
  field = Some v /\ v <> "".
Proof.
  intros Hlabel. unfold detailLine.
  destruct field as [x |].
  - destruct (String.eqb_spec x "") as [-> | Hx].
    + intros H. destruct label; [contradiction | discriminate].
    + intros H. apply append_inj_r in H. subst x. split; [reflexivity | exact Hx].
  - intros H. destruct label; [contradiction | discriminate].
Qed.

Lemma detailLine_present (label v : string) :
  v <> "" -> detailLine label (Some v) = label +:+ v.
Proof.
  intros Hv. unfold detailLine.
  destruct (String.eqb_spec v ""); [contradiction | reflexivity].
Qed.

(** A line of one label is never the line of another: the labels differ
    before either ends. *)
Lemma detailLine_miss (label other : string) (field : option string)
    (v : string) :
  (forall x y, other +:+ x <> label +:+ y) ->
  label <> "" ->
  detailLine other field <> label +:+ v.
Proof.
  intros Hdiff Hlabel. unfold detailLine.
  destruct field as [x |].
  - destruct (String.eqb x ""); [| apply Hdiff].
    intros H. destruct label; [contradiction | discriminate].
  - intros H. destruct label; [contradiction | discriminate].
Qed.

(** C6, as stated, fails on the fields the template does not name:
    a property whose house rules are present and non-empty gets the
    prompt of a property without details, and the rules occur nowhere
    in it. *)
Lemma house_rules_are_not_rendered :
  let d := setField HouseRules (Some "No parties after 10pm") noDetails in
  let p := mkProperty 1 "Villa Sol" "+15550100" 7 (Some d) in
  fieldValue HouseRules d = Some "No parties after 10pm"
  /\ createSystemPrompt p "" = createSystemPrompt Scenario.villa ""
  /\ Js.includes (createSystemPrompt p "") "No parties after 10pm" = false
  /\ forall label,
       ~ In (label +:+ "No parties after 10pm") (promptDetails d).
Proof.
  cbn zeta. conjuncts; try reflexivity.
  intros label. simpl. intros [H | [H | [H | [H | []]]]];
    destruct label; discriminate.
Qed.

(** C6, amended.  The prompt is the template's lines joined by line
    feeds, with a block of four detail lines.  For each of the four
    fields the template names (check-in time, check-out time, WiFi
    password, location) the block holds the field's labeled line
    exactly when the field is present and non-empty, and never the bare
    label; the other optional fields do not influence the prompt. *)
Theorem prompt_renders_templated_fields (property : Property)
    (relevantInfo : string) :
  createSystemPrompt property relevantInfo =
    Js.join Js.nl (promptIntro (name property) relevantInfo
                   ++ promptDetails (detailsOf property) ++ promptGuidelines)
  /\ (forall f label v,
        promptLabel f = Some label ->
        (In (label +:+ v) (promptDetails (detailsOf property))
         <-> fieldValue f (detailsOf property) = Some v /\ v <> ""))
  /\ (forall f label,
        promptLabel f = Some label ->
        ~ In label (promptDetails (detailsOf property)))
  /\ (forall f v d,
        promptLabel f = None ->
        propertyDetails property = Some d ->
        createSystemPrompt
          (mkProperty (p_id property) (name property) (phoneNumber property)
                      (userId property) (Some (setField f v d)))
          relevantInfo
        = createSystemPrompt property relevantInfo).
Proof.
  assert (Hiff : forall f label v,
            promptLabel f = Some label ->
            (In (label +:+ v) (promptDetails (detailsOf property))
             <-> fieldValue f (detailsOf property) = Some v /\ v <> "")).
  { intros f label v Hlabel. set (d := detailsOf property).
    unfold promptDetails. split.
    - intros Hin.
      destruct f; try discriminate Hlabel;
        injection Hlabel as <-; cbn [fieldValue];
        repeat (destruct Hin as [Hin | Hin]);
        try contradiction;
        try (apply detailLine_hit in Hin; [exact Hin | discriminate]);
        exfalso; revert Hin;
        apply detailLine_miss; (labels_differ || discriminate).
    - intros [Hv Hne].
      destruct f; try discriminate Hlabel;
        injection Hlabel as <-; cbn [fieldValue] in Hv;
        rewrite Hv, (detailLine_present _ v Hne); simpl; tauto. }
  conjuncts.
  - reflexivity.
  - exact Hiff.
  - intros f label Hlabel Hin.
    rewrite <- (append_empty_r label) in Hin.
    apply (Hiff f label "" Hlabel) in Hin.
    destruct Hin as [_ Hne]. apply Hne. reflexivity.
  - intros f v d Hlabel Hd. unfold createSystemPrompt.
    cbn [propertyDetails name]. rewrite Hd.
    destruct f; try discriminate; reflexivity.
Qed.

Lemma prompt_renders_templated_fields_witness :
  let d := setField WifiPassword (Some "")
             (setField CheckInTime (Some "3pm") noDetails) in
  let p := mkProperty 1 "Villa Sol" "+15550100" 7 (Some d) in
  In "- Check-in time: 3pm" (promptDetails (detailsOf p))
  /\ ~ In "- WiFi password: " (promptDetails (detailsOf p)).
Proof.
  cbn zeta.
  set (d := setField WifiPassword (Some "")
              (setField CheckInTime (Some "3pm") noDetails)).
  set (p := mkProperty 1 "Villa Sol" "+15550100" 7 (Some d)).
  destruct (prompt_renders_templated_fields p "") as (_ & Hiff & Hbare & _).
  split.
  - apply (Hiff CheckInTime "- Check-in time: " "3pm" eq_refl).
    split; [reflexivity | discriminate].
  - apply (Hbare WifiPassword "- WiFi password: " eq_refl).
Defined.

(** ** Messages written by the host *)

Lemma find_some_existsb {X} (f : X -> bool) (l : list X) (x : X) :
  List.find f l = Some x -> existsb f l = true.
Proof.
  induction l as [| y l IH]; simpl; [discriminate |].
  destruct (f y); [reflexivity | exact IH].
Qed.

(** [TwilioService.sendManualMessage]: the message is stored as a
    message from the host, one unit is consumed on the owning account
    and the message is dispatched; neither retrieval nor generation is
    involved. *)
Lemma sendManualMessage_consumes_one_unit (env : Env) (cid : Id) (text : string)
    (w : World) (c : Conversation) (p : Property) (u : User) :
  List.find (fun x => Nat.eqb (c_id x) cid) (conversations (db w)) = Some c ->
  List.find (fun q => Nat.eqb (p_id q) (propertyId c)) (properties (db w))
    = Some p ->
  users (db w) !! userId p = Some u ->
  accepted env (outgoing env (guestPhoneNumber c) text) ->
  let m := mkMessage (nextId (db w)) cid text false in
  run (sendManualMessage env cid text) w =
  (Ok m,
   mkWorld (mkDB (<[userId p := consume 1 u]> (users (db w)))
                 (properties (db w)) (conversations (db w))
                 (messages (db w) ++ [m]) (S (nextId (db w))))
           (outbox w ++ [outgoing env (guestPhoneNumber c) text]) (now w)).
Proof.
  intros Hc Hp Hu [sid Hsend]. cbn zeta.
  unfold outgoing in *. cbn [sms_from sms_to sms_body] in Hsend.
  unfold sendManualMessage. rewrite run_rethrow.
  cbn [bind await run]. unfold Prisma.conversation_findUnique, Prisma.read.
  rewrite Hc, Hp. store_step. rewrite Hu. store_step.
  rewrite run_bind, sendWhatsAppMessage_run, Hsend. reflexivity.
Qed.

(** C7.  The route [POST /:id/messages], on a non-blank text sent by the
    owner into an existing conversation, stores the text as a message
    from the host, hands it to the channel provider and answers 201,
    and leaves every account's [messageCount] as it was: no unit is
    consumed on this path. *)
Theorem host_route_consumes_no_quota (env : Env) (reqUserId id : Id)
    (text : string) (w : World) (c : Conversation) (p : Property) :
  text <> "" ->
  Js.trim text <> "" ->
  List.find (fun x => Nat.eqb (c_id x) id) (conversations (db w)) = Some c ->
  List.find (fun q => Nat.eqb (p_id q) (propertyId c)) (properties (db w))
    = Some p ->
  userId p = reqUserId ->
  let route := postMessage env reqUserId id (Text text) in
  let m := mkMessage (nextId (db w)) id text false in
  let sms := mkSms (whatsapp (phoneNumber p)) (whatsapp (guestPhoneNumber c))
                   text in
  result route w = Ok (mkResponse 201 (JsonMessage m))
  /\ messages (db (after route w)) = messages (db w) ++ [m]
  /\ users (db (after route w)) = users (db w)
  /\ (accepted env sms -> outbox (after route w) = outbox w ++ [sms]).
Proof.
  intros Htext Htrim Hc Hp Howner. cbn zeta.
  unfold result, after, accepted, postMessage. cbn [sms_from sms_to sms_body].
  rewrite run_try_catch.
  destruct (String.eqb_spec text "") as [| _]; [contradiction |].
  destruct (String.eqb_spec (Js.trim text) "") as [| _]; [contradiction |].
  cbn [orb bind await run].
  unfold Prisma.conversation_findUnique, Prisma.read. rewrite Hc, Hp.
  cbn [bind await run]. rewrite Howner, Nat.eqb_refl. cbn [negb].
  store_step. cbn zeta.
  rewrite (find_some_existsb _ _ _ Hc).
  store_step.
  rewrite run_bind, run_try_catch, run_bind, sendMessage_run.
  destruct (twilio_messages_create env _ _ _) as [sid |];
    cbn [run fst snd with_outbox db outbox messages users];
    conjuncts; try reflexivity.
  intros [sid Hsid]. discriminate.
Qed.

Lemma host_route_consumes_no_quota_witness :
  let route := postMessage Scenario.healthy 7 50 (Text "Welcome!") in
  let w := Scenario.chatting 10 100 in
  result route w = Ok (mkResponse 201 (JsonMessage (mkMessage 100 50 "Welcome!" false)))
  /\ messages (db (after route w)) = [mkMessage 100 50 "Welcome!" false]
  /\ users (db (after route w)) !! 7%nat = Some (Scenario.host 10 100)
  /\ List.map sms_body (outbox (after route w)) = ["Welcome!"].
Proof.
  cbn zeta.
  destruct (host_route_consumes_no_quota Scenario.healthy 7 50 "Welcome!"
              (Scenario.chatting 10 100) Scenario.talk Scenario.villa
              ltac:(discriminate) ltac:(vm_compute; discriminate)
              eq_refl eq_refl eq_refl)
    as (Hres & Hmsgs & Husers & Hout).
  rewrite Hmsgs, Husers, (Hout ltac:(eexists; reflexivity)).
  conjuncts; solve [reflexivity | exact Hres].
Defined.

(** The service method, on the same message, takes the account from 10
    to 11. *)
Example sendManualMessage_takes_one_unit :
  users (db (after (sendManualMessage Scenario.healthy 50 "Welcome!")
                   (Scenario.chatting 10 100))) !! 7%nat
  = Some (Scenario.host 11 100).
Proof.
  unfold after.
  rewrite (sendManualMessage_consumes_one_unit Scenario.healthy 50 "Welcome!"
             (Scenario.chatting 10 100) Scenario.talk Scenario.villa
             (Scenario.host 10 100) eq_refl eq_refl eq_refl
             ltac:(eexists; reflexivity)).
  apply lookup_insert_eq.
Qed.

(** ** First contact: lookup-or-create *)

Lemma find_none_filter {X} (f : X -> bool) (l : list X) :
  List.find f l = None -> List.filter f l = [].
Proof.
  induction l as [| x l IH]; simpl; [reflexivity |].
  destruct (f x); [discriminate | exact IH].
Qed.

(** What one event, run to completion, does to the conversation table:
    nothing, or one new row for a pair that had none. *)
Lemma pim_conversations (env : Env) (md : MessageData) (w : World) :
  let w' := after (processIncomingMessage env md) w in
  conversations (db w') = conversations (db w)
  \/ exists p,
       thread md p w = None
       /\ conversations (db w') = conversations (db w) ++ [newConversation md w p].
Proof.
  cbn zeta.
  destruct (resolve md w) as [p |] eqn:Hp.
  2: { left. unfold after. rewrite (pim_unroutable env md w Hp). reflexivity. }
  destruct (users (db w) !! userId p) as [u |] eqn:Hu.
  2: { left. unfold after. rewrite (pim_no_account env md w p Hp Hu).
       reflexivity. }
  destruct (Z.lt_ge_cases (messageCount u) (messageLimit u)) as [Hlt | Hge].
  - destruct (pim_admitted_store env md w p u Hp Hu Hlt)
      as (mid & d2 & _ & _ & Hconvs & _).
    unfold conversationsAfter in Hconvs.
    destruct (thread md p w) as [c |] eqn:Hthread.
    + left. exact Hconvs.
    + right. exists p. split; [exact Hthread | exact Hconvs].
  - left. unfold after.
    rewrite (pim_limit_reached env md w p u Hp Hu ltac:(lia)).
    destruct (twilio_messages_create env _ _ _); reflexivity.
Qed.

(** Events handled one after the other never give a pair a second
    conversation. *)
Lemma sequential_events_keep_pairs_unique (env : Env) (md : MessageData)
    (w : World) :
  (forall pid phone, (length (rowsFor pid phone w) <= 1)%nat) ->
  forall pid phone,
    (length (rowsFor pid phone (after (processIncomingMessage env md) w)) <= 1)%nat.
Proof.
  intros Huniq pid phone. unfold rowsFor in *.
  destruct (pim_conversations env md w) as [Hsame | (p & Hnone & Hnew)];
    cbn zeta in *.
  - rewrite Hsame. apply Huniq.
  - rewrite Hnew, List.filter_app, List.length_app. cbn [List.filter].
    destruct (Prisma.same_pair pid phone (newConversation md w p)) eqn:Hpair.
    + unfold Prisma.same_pair in Hpair. cbn [newConversation propertyId
        guestPhoneNumber] in Hpair.
      apply andb_true_iff in Hpair as [Hpid Hphone].
      apply Nat.eqb_eq in Hpid. apply String.eqb_eq in Hphone. subst pid phone.
      unfold thread in Hnone. rewrite (find_none_filter _ _ Hnone).
      simpl. lia.
    + specialize (Huniq pid phone). simpl. lia.
Qed.

(** C8.  Two first-contact events of one guest for one property, handled
    as two tasks that take turns at every awaited call, both find no
    conversation and both create one: over a store without a unique
    constraint on the pair, both tasks complete and the pair ends with
    two conversation rows. *)
Theorem concurrent_first_contact_duplicates :
  let pim := processIncomingMessage Scenario.healthy Scenario.hello in
  let w0 := Scenario.world 0 100 in
  let '(p, q, w) := interleave (alternate 14) pim pim w0 in
  rowsFor 1 "+15550199" w0 = []
  /\ p = Ret (Success 1 100 102)
  /\ q = Ret (Success 1 101 103)
  /\ List.map c_id (rowsFor 1 "+15550199" w) = [100; 101]%nat.
Proof.
  vm_compute. conjuncts; reflexivity.
Qed.

(** Handled one after the other, the same two events share one
    conversation. *)
Example sequential_first_contact_shares :
  let pim := processIncomingMessage Scenario.healthy Scenario.hello in
  let w0 := Scenario.world 0 100 in
  List.map c_id (rowsFor 1 "+15550199" (after pim (after pim w0))) = [100%nat]
  /\ result pim (after pim w0) = Ok (Success 1 100 103).
Proof.
  vm_compute. conjuncts; reflexivity.
Qed.

(** Over a store that declares the pair unique, the same schedule leaves
    one row: the second [create] is rejected and the second event ends
    with that rejection, its message neither stored nor answered. *)
Example concurrent_first_contact_unique_store :
  let pim := processIncomingMessage Scenario.healthyUnique Scenario.hello in
  let w0 := Scenario.world 0 100 in
  let '(p, q, w) := interleave (alternate 14) pim pim w0 in
  p = Ret (Success 1 100 101)
  /\ q = Throw (PrismaError "P2002")
  /\ List.map c_id (rowsFor 1 "+15550199" w) = [100%nat]
  /\ List.map isFromGuest (messages (db w)) = [true; false]
  /\ length (outbox w) = 1%nat.
Proof.
  vm_compute. conjuncts; reflexivity.
Qed.

(** The race in general: over a store without the unique constraint,
    whenever two tasks handling the same admitted first-contact event
    take turns, the first four steps of each (resolve, account, lookup,
    create) leave two new rows for the pair. *)
Lemma first_contact_race (env : Env) (md : MessageData) (w : World)
    (p : Property) (u : User) :
  conversation_unique env = false ->
  resolve md w = Some p ->
  users (db w) !! userId p = Some u ->
  (messageCount u < messageLimit u)%Z ->
  thread md p w = None ->
  let pim := processIncomingMessage env md in
  conversations (db (snd (interleave (alternate 4) pim pim w))) =
    conversations (db w) ++
      [newConversation md w p;
       mkConversation (S (nextId (db w))) (p_id p) (guestOf md)
                      (Js.or_else (ProfileName md) "Guest") (now w)].
Proof.
  intros Hschema Hp Hu Hlt Hnone. cbn zeta.
  unfold resolve, lineOf in Hp. unfold thread, guestOf in Hnone.
  unfold newConversation, guestOf.
  assert (Hgate : (messageCount u >=? messageLimit u)%Z = false)
    by (rewrite Z.geb_leb; apply Z.leb_gt; lia).
  unfold alternate. cbn [List.seq List.flat_map List.app interleave].
  unfold processIncomingMessage.
  cbn [try_catch bind await step].
  unfold Prisma.property_findFirst, Prisma.read. rewrite Hp.
  cbn [try_catch bind await step].
  unfold Prisma.user_findUnique, Prisma.read. rewrite Hu, Hgate.
  cbn [try_catch bind await step].
  unfold Prisma.conversation_findFirst, Prisma.read. rewrite Hnone.
  cbn [try_catch bind await step].
  unfold Prisma.conversation_create. rewrite Hschema.
  cbn [andb try_catch bind await step with_db db conversations nextId now
       snd].
  rewrite <- app_assoc. reflexivity.
Qed.

Lemma first_contact_race_rows (env : Env) (md : MessageData) (w : World)
    (p : Property) (u : User) :
  conversation_unique env = false ->
  resolve md w = Some p ->
  users (db w) !! userId p = Some u ->
  (messageCount u < messageLimit u)%Z ->
  thread md p w = None ->
  let pim := processIncomingMessage env md in
  length (rowsFor (p_id p) (guestOf md) w) = 0%nat
  /\ length (rowsFor (p_id p) (guestOf md)
                     (snd (interleave (alternate 4) pim pim w))) = 2%nat.
Proof.
  intros Hschema Hp Hu Hlt Hnone. cbn zeta. unfold rowsFor.
  rewrite (first_contact_race env md w p u Hschema Hp Hu Hlt Hnone).
  unfold thread in Hnone.
  rewrite List.filter_app, (find_none_filter _ _ Hnone).
  cbn [List.filter List.app]. unfold Prisma.same_pair, newConversation.
  cbn [propertyId guestPhoneNumber].
  rewrite Nat.eqb_refl, String.eqb_refl. split; reflexivity.
Qed.

(** ** Further properties of the inbound pipeline *)

Lemma prefix_of_append (p n : string) : String.prefix p (p +:+ n) = true.
Proof.
  induction p as [| c p IH].
  - destruct n; reflexivity.
  - change (String c p +:+ n) with (String c (p +:+ n)). cbn [String.prefix].
    destruct (Ascii.ascii_dec c c) as [_ | Hne]; [exact IH | contradiction].
Qed.








(** X2.  When the channel provider rejects the reply of an admitted
    event, the pipeline rejects with the provider's error after the
    fact: both messages stay stored and both units stay consumed, the
    outbox is unchanged, and the webhook still acknowledges. *)
Theorem failed_dispatch_keeps_the_exchange (env : Env) (md : MessageData)
    (w : World) (p : Property) (u : User) :
  resolve md w = Some p ->
  users (db w) !! userId p = Some u ->
  (messageCount u < messageLimit u)%Z ->
  (forall text, ~ accepted env (outgoing env (guestOf md) text)) ->
  let pim := processIncomingMessage env md in
  result pim w = Thrown (ProviderError "twilio")
  /\ users (db (after pim w)) = <[userId p := consume 2 u]> (users (db w))
  /\ (exists mid cid reply,
        messages (db (after pim w)) =
          messages (db w) ++ [mkMessage mid cid (Body md) true;
                              mkMessage (S mid) cid reply false])
  /\ outbox (after pim w) = outbox w
  /\ run (postTwilio env md) w = (Ok twiml, after pim w).
Proof.
  intros Hp Hu Hlt Hdown. cbn zeta.
  destruct (pim_admitted env md w p u Hp Hu Hlt)
    as (mid & d2 & w3 & Husers & _ & _ & Hmsgs & Hout & Hrun).
  cbn zeta in *.
  rewrite postTwilio_always_acknowledges.
  unfold result, after. rewrite Hrun.
  destruct (twilio_messages_create env _ _ _) as [sid |] eqn:Hsend.
  - exfalso. eapply Hdown. unfold accepted, outgoing.
    cbn [sms_from sms_to sms_body]. rewrite Hsend. eexists; reflexivity.
  - cbn [fst snd]. conjuncts; try assumption; try reflexivity.
    eexists mid, _, _. exact Hmsgs.
Qed.

Lemma failed_dispatch_keeps_the_exchange_witness :
  let pim := processIncomingMessage Cases.noChannel Scenario.hello in
  let w := Scenario.world 0 100 in
  result pim w = Thrown (ProviderError "twilio")
  /\ users (db (after pim w)) !! 7%nat = Some (Scenario.host 2 100)
  /\ length (messages (db (after pim w))) = 2%nat
  /\ outbox (after pim w) = [].
Proof.
  cbn zeta.
  destruct (failed_dispatch_keeps_the_exchange Cases.noChannel Scenario.hello
              (Scenario.world 0 100) Scenario.villa (Scenario.host 0 100)
              eq_refl eq_refl ltac:(simpl; lia)
              ltac:(intros text [sid Hsid]; discriminate))
    as (Hres & Husers & (mid & cid & reply & Hmsgs) & Hout & _).
  rewrite Husers, Hmsgs, Hout. conjuncts.
  - exact Hres.
  - apply lookup_insert_eq.
  - reflexivity.
  - reflexivity.
Defined.

(** X3.  An admitted event of a guest who already has a conversation
    with the property creates none: the conversation table is left as
    it was (the stored guest name included, whatever display name the
    event carries), and both messages are attached to the conversation
    found. *)
Theorem returning_guest_reuses_conversation (env : Env) (md : MessageData)
    (w : World) (p : Property) (u : User) (c : Conversation) :
  resolve md w = Some p ->
  users (db w) !! userId p = Some u ->
  (messageCount u < messageLimit u)%Z ->
  thread md p w = Some c ->
  let pim := processIncomingMessage env md in
  conversations (db (after pim w)) = conversations (db w)
  /\ (exists mid reply,
        messages (db (after pim w)) =
          messages (db w) ++ [mkMessage mid (c_id c) (Body md) true;
                              mkMessage (S mid) (c_id c) reply false]
        /\ (accepted env (outgoing env (guestOf md) reply) ->
            result pim w = Ok (Success (p_id p) (c_id c) mid))).
Proof.
  intros Hp Hu Hlt Hthread. cbn zeta.
  destruct (pim_admitted_store env md w p u Hp Hu Hlt)
    as (mid & d2 & _ & _ & Hconvs & Hmsgs & Hdone).
  cbn zeta in *.
  unfold conversationsAfter, conversationFor in *. rewrite Hthread in *.
  split; [exact Hconvs |].
  eexists mid, _. split; [exact Hmsgs |].
  intros Hsend. apply (Hdone Hsend).
Qed.

Lemma returning_guest_reuses_conversation_witness :
  let pim := processIncomingMessage Scenario.healthy Scenario.anonymous in
  let w := Scenario.chatting 0 100 in
  conversations (db (after pim w)) = [Scenario.talk]
  /\ List.map conversationId (messages (db (after pim w))) = [50; 50]%nat.
Proof.
  cbn zeta.
  destruct (returning_guest_reuses_conversation Scenario.healthy
              Scenario.anonymous (Scenario.chatting 0 100) Scenario.villa
              (Scenario.host 0 100) Scenario.talk
              eq_refl eq_refl ltac:(simpl; lia) eq_refl)
    as (Hconvs & mid & reply & Hmsgs & _).
  rewrite Hconvs, Hmsgs. split; reflexivity.
Defined.



(** ** Further properties of the assistant *)

Lemma history_is_last_ten (cid : Id) (d : DB) :
  List.rev (List.firstn 10 (List.rev
    (List.filter (fun m => Nat.eqb (conversationId m) cid) (messages d))))
  = lastN 10 (messagesOf d cid).
Proof.
  unfold lastN, messagesOf. rewrite List.firstn_rev, List.rev_involutive.
  reflexivity.
Qed.

(** X6.  The reply of [processMessage] depends on the store only through
    the property table and the last ten messages of the conversation,
    in creation order: older messages and the messages of other
    conversations never influence it. *)
Theorem reply_uses_last_ten_messages (env : Env) (pid cid : Id)
    (message : string) (w w' : World) :
  properties (db w) = properties (db w') ->
  lastN 10 (messagesOf (db w) cid) = lastN 10 (messagesOf (db w') cid) ->
  result (processMessage env pid cid message) w
  = result (processMessage env pid cid message) w'.
Proof.
  intros Hprops Hrecent. unfold result.
  rewrite !processMessage_run. cbn [fst]. f_equal.
  unfold replyOf. rewrite !history_is_last_ten, Hprops, Hrecent. reflexivity.
Qed.

Lemma reply_uses_last_ten_messages_witness :
  length (messagesOf (db Cases.longTalk) 50) = 12%nat
  /\ result (processMessage Scenario.healthy 1 50 "And check-out?")
            Cases.longTalk
     = result (processMessage Scenario.healthy 1 50 "And check-out?")
              Cases.recentTalk.
Proof.
  split; [reflexivity |].
  apply (reply_uses_last_ten_messages Scenario.healthy 1 50 "And check-out?"
           Cases.longTalk Cases.recentTalk); reflexivity.
Defined.

(** X7.  [processMessage] never rejects and never writes: for every
    input and every behaviour of the providers it resolves to a text
    and leaves the store and the outbox as they were; for a property id
    that matches no property the text is the apology. *)
Theorem processMessage_always_replies (env : Env) (pid cid : Id)
    (message : string) (w : World) :
  exists text,
    run (processMessage env pid cid message) w = (Ok text, w)
    /\ (Prisma.property_findUnique pid w = (Ok None, w) -> text = apology).
Proof.
  exists (replyOf env (db w) pid cid message).
  split; [apply processMessage_run |].
  unfold Prisma.property_findUnique, Prisma.read, replyOf.
  intros H. injection H as H. rewrite H. reflexivity.
Qed.

(** ** Further properties of the host's messages *)

(** X8.  [sendManualMessage] has no quota gate: for an existing
    conversation it stores the text as a message from the host, adds
    one unit to the owning account and hands the text to the channel
    provider for the conversation's guest, whatever the account's
    [messageCount] and [messageLimit] are. *)
Theorem manual_message_bypasses_the_gate (env : Env) (cid : Id)
    (text : string) (w : World) (c : Conversation) (p : Property) (u : User) :
  Prisma.conversation_findUnique cid w = (Ok (Some (c, Some p)), w) ->
  users (db w) !! userId p = Some u ->
  accepted env (outgoing env (guestPhoneNumber c) text) ->
  let send := sendManualMessage env cid text in
  let m := mkMessage (nextId (db w)) cid text false in
  result send w = Ok m
  /\ messages (db (after send w)) = messages (db w) ++ [m]
  /\ users (db (after send w)) = <[userId p := consume 1 u]> (users (db w))
  /\ outbox (after send w)
     = outbox w ++ [outgoing env (guestPhoneNumber c) text].
Proof.
  intros Hfind Hu Hsend. cbn zeta.
  unfold Prisma.conversation_findUnique, Prisma.read in Hfind.
  injection Hfind as Hfind.
  destruct (List.find (fun x => Nat.eqb (c_id x) cid) (conversations (db w)))
    as [c' |] eqn:Hc; [| discriminate].
  injection Hfind as -> Hp.
  unfold result, after.
  rewrite (sendManualMessage_consumes_one_unit env cid text w c p u
             Hc Hp Hu Hsend).
  conjuncts; reflexivity.
Qed.

Lemma manual_message_bypasses_the_gate_witness :
  let send := sendManualMessage Scenario.healthy 50 "Welcome!" in
  let w := Scenario.chatting 100 100 in
  users (db (after send w)) !! 7%nat = Some (Scenario.host 101 100)
  /\ List.map sms_body (outbox (after send w)) = ["Welcome!"].
Proof.
  cbn zeta.
  destruct (manual_message_bypasses_the_gate Scenario.healthy 50 "Welcome!"
              (Scenario.chatting 100 100) Scenario.talk Scenario.villa
              (Scenario.host 100 100) eq_refl eq_refl
              ltac:(eexists; reflexivity))
    as (_ & _ & Husers & Hout).
  rewrite Husers, Hout. split; [apply lookup_insert_eq | reflexivity].
Defined.

(** X9.  [sendManualMessage] does not undo what it stored: for an id
    that matches no conversation it rejects with "Conversation not
    found" and changes nothing; when the channel provider rejects the
    send it rejects with the provider's error, with the message stored
    and the unit consumed all the same. *)
Theorem manual_message_failures (env : Env) (cid : Id) (text : string)
    (w : World) :
  let send := sendManualMessage env cid text in
  (Prisma.conversation_findUnique cid w = (Ok None, w) ->
   run send w = (Thrown (JsError "Conversation not found"), w))
  /\ (forall c p u,
        Prisma.conversation_findUnique cid w = (Ok (Some (c, Some p)), w) ->
        users (db w) !! userId p = Some u ->
        ~ accepted env (outgoing env (guestPhoneNumber c) text) ->
        result send w = Thrown (ProviderError "twilio")
        /\ messages (db (after send w))
           = messages (db w) ++ [mkMessage (nextId (db w)) cid text false]
        /\ users (db (after send w))
           = <[userId p := consume 1 u]> (users (db w))
        /\ outbox (after send w) = outbox w).
Proof.
  cbn zeta. split.
  - unfold Prisma.conversation_findUnique, Prisma.read. intros Hfind.
    injection Hfind as Hfind.
    unfold sendManualMessage. rewrite run_rethrow.
    cbn [bind await run]. unfold Prisma.conversation_findUnique, Prisma.read.
    rewrite Hfind. reflexivity.
  - intros c p u Hfind Hu Hdown.
    unfold Prisma.conversation_findUnique, Prisma.read in Hfind.
    injection Hfind as Hfind.
    unfold result, after, sendManualMessage. rewrite run_rethrow.
    cbn [bind await run]. unfold Prisma.conversation_findUnique, Prisma.read.
    rewrite Hfind. store_step. rewrite Hu. store_step.
    rewrite run_bind, sendWhatsAppMessage_run.
    unfold accepted, outgoing in Hdown. cbn [sms_from sms_to sms_body] in Hdown.
    destruct (twilio_messages_create env _ _ _) as [sid |] eqn:Hsend.
    + exfalso. apply Hdown. eexists; reflexivity.
    + cbn [fst snd db messages users outbox]. conjuncts; reflexivity.
Qed.

Lemma manual_message_failures_witness :
  run (sendManualMessage Scenario.healthy 51 "Welcome!") (Scenario.chatting 0 100)
  = (Thrown (JsError "Conversation not found"), Scenario.chatting 0 100)
  /\ users (db (after (sendManualMessage Cases.noChannel 50 "Welcome!")
                      (Scenario.chatting 0 100))) !! 7%nat
     = Some (Scenario.host 1 100).
Proof.
  split.
  - apply (proj1 (manual_message_failures Scenario.healthy 51 "Welcome!"
                    (Scenario.chatting 0 100))).
    reflexivity.
  - destruct (proj2 (manual_message_failures Cases.noChannel 50 "Welcome!"
                       (Scenario.chatting 0 100))
                Scenario.talk Scenario.villa (Scenario.host 0 100)
                eq_refl eq_refl ltac:(intros [sid Hsid]; discriminate))
      as (_ & _ & Husers & _).
    rewrite Husers. apply lookup_insert_eq.
Defined.

(** ** The route [POST /:id/messages] *)



(** The route on every other request: an answer that is not 201, and
    nothing touched. *)
Lemma postMessage_declines (env : Env) (reqUserId id : Id)
    (reqContent : BodyValue) (w : World) :
  (blankContent reqContent = true
   \/ Prisma.conversation_findUnique id w = (Ok None, w)
   \/ (exists c, Prisma.conversation_findUnique id w = (Ok (Some (c, None)), w))
   \/ (exists c p,
         Prisma.conversation_findUnique id w = (Ok (Some (c, Some p)), w)
         /\ userId p <> reqUserId)) ->
  exists r,
    run (postMessage env reqUserId id reqContent) w = (Ok r, w)
    /\ (status r = 400 \/ status r = 404 \/ status r = 403 \/ status r = 500)%nat.
Proof.
  unfold postMessage, Prisma.conversation_findUnique, Prisma.read.
  rewrite run_try_catch.
  destruct reqContent as [| text | truthy].
  1, 3: intros _; eexists; split; [reflexivity | left; reflexivity].
  cbn [blankContent].
  destruct (String.eqb text "" || String.eqb (Js.trim text) "") eqn:Hblank.
  { intros _. eexists; split; [reflexivity | left; reflexivity]. }
  intros [Habs | [Hnone | [(c & Horphan) | (c & p & Hfound & Hother)]]];
    [discriminate | | |].
  - injection Hnone as Hnone. cbn [bind await run]. rewrite Hnone.
    eexists; split; [reflexivity | right; left; reflexivity].
  - injection Horphan as Horphan. cbn [bind await run]. rewrite Horphan.
    eexists; split; [reflexivity | right; right; right; reflexivity].
  - injection Hfound as Hfound. cbn [bind await run]. rewrite Hfound.
    apply Nat.eqb_neq in Hother. cbn [bind await run]. rewrite Hother.
    eexists; split; [reflexivity | right; right; left; reflexivity].
Qed.

(** Every request falls under one of the two lemmas. *)
Lemma postMessage_request_cases (reqUserId id : Id) (reqContent : BodyValue)
    (w : World) :
  (exists text c p,
     reqContent = Text text
     /\ blankContent (Text text) = false
     /\ Prisma.conversation_findUnique id w = (Ok (Some (c, Some p)), w)
     /\ userId p = reqUserId)
  \/ (blankContent reqContent = true
      \/ Prisma.conversation_findUnique id w = (Ok None, w)
      \/ (exists c,
            Prisma.conversation_findUnique id w = (Ok (Some (c, None)), w))
      \/ (exists c p,
            Prisma.conversation_findUnique id w = (Ok (Some (c, Some p)), w)
            /\ userId p <> reqUserId)).
Proof.
  destruct (blankContent reqContent) eqn:Hblank; [right; left; reflexivity |].
  destruct reqContent as [| text | truthy]; try discriminate.
  unfold Prisma.conversation_findUnique, Prisma.read.
  destruct (List.find (fun x => Nat.eqb (c_id x) id) (conversations (db w)))
    as [c |]; [| right; right; left; reflexivity].
  destruct (List.find (fun q => Nat.eqb (p_id q) (propertyId c))
                      (properties (db w))) as [p |].
  - destruct (decide (userId p = reqUserId)) as [Howner | Hother].
    + left. exists text, c, p. conjuncts; auto.
    + right. right. right. right. exists c, p. split; auto.
  - right. right. right. left. exists c. reflexivity.
Qed.


(** ** The [authenticate] middleware *)

Lemma prefix_gives_append (p s : string) :
  String.prefix p s = true -> exists rest, s = p +:+ rest.
Proof.
  revert s. induction p as [| a p IH]; intros s H.
  - exists s. reflexivity.
  - destruct s as [| b s]; cbn [String.prefix] in H; [discriminate |].
    destruct (Ascii.ascii_dec a b) as [-> | _]; [| discriminate].
    destruct (IH s H) as [rest ->]. exists rest. reflexivity.
Qed.

Lemma split_after_bearer (rest : string) :
  JsText.split " " ("Bearer " +:+ rest) = "Bearer" :: JsText.split " " rest.
Proof. reflexivity. Qed.

(** What lets a request through. *)
Lemma authenticate_next (verify : string -> JwtVerdict)
    (authorization : option string) (u : Id) :
  authenticate verify authorization = Next u <->
  exists rest token,
    authorization = Some ("Bearer " +:+ rest)
    /\ bearerToken rest = Some token
    /\ verify token = JwtDecoded u.
Proof.
  unfold authenticate, bearerToken. split.
  - destruct authorization as [authHeader |]; [| discriminate].
    destruct (String.eqb authHeader ""); [discriminate |].
    destruct (Js.startsWith authHeader "Bearer ") eqn:Hbearer;
      [| discriminate].
    apply prefix_gives_append in Hbearer as [rest ->].
    rewrite split_after_bearer. cbn [orb negb JsText.at_index nth_error].
    destruct (JsText.split " " rest) as [| token others] eqn:Hsplit;
      [discriminate |].
    destruct (verify token) as [u' | errorName] eqn:Hverify.
    + intros H. injection H as ->. exists rest, token.
      rewrite Hsplit. conjuncts; reflexivity || assumption.
    + destruct (String.eqb errorName "JsonWebTokenError"
                || String.eqb errorName "TokenExpiredError"); discriminate.
  - intros (rest & token & -> & Htoken & Hverify).
    unfold Js.startsWith. rewrite prefix_of_append, split_after_bearer.
    cbn [JsText.at_index nth_error] in *.
    destruct (JsText.split " " rest) as [| token' others];
      [discriminate |].
    injection Htoken as ->.
    replace (String.eqb ("Bearer " +:+ rest) "") with false by reflexivity.
    cbn [orb negb]. rewrite Hverify. reflexivity.
Qed.

(** X11.  [authenticate] calls [next()] exactly for a header that is
    [Bearer ] followed by a token that [jwt.verify] decodes, and then
    [req.userId] is the decoded user; the token verified is the first
    word after [Bearer ], so a header with no [Bearer ] prefix, no
    header at all, or a token that does not verify is answered by the
    middleware itself and never reaches the handler. *)
Theorem authenticate_lets_verified_bearers_through
    (verify : string -> JwtVerdict) (authorization : option string) :
  (forall u,
     authenticate verify authorization = Next u <->
     exists rest token,
       authorization = Some ("Bearer " +:+ rest)
       /\ bearerToken rest = Some token
       /\ verify token = JwtDecoded u)
  /\ (forall r,
        authenticate verify authorization = Answered r ->
        status r = 401%nat \/ status r = 500%nat).
Proof.
  split; [intros u; apply authenticate_next |].
  intros r. unfold authenticate.
  destruct authorization as [authHeader |].
  2: { intros H. injection H as <-. left. reflexivity. }
  destruct (String.eqb authHeader "" || negb (Js.startsWith authHeader "Bearer ")).
  { intros H. injection H as <-. left. reflexivity. }
  destruct (JsText.at_index (JsText.split " " authHeader) 1) as [token |].
  2: { intros H. injection H as <-. left. reflexivity. }
  destruct (verify token) as [u | errorName]; [discriminate |].
  destruct (String.eqb errorName "JsonWebTokenError"
            || String.eqb errorName "TokenExpiredError");
    intros H; injection H as <-; [left | right]; reflexivity.
Qed.

(** X12.  Through the authenticated route a message is stored only for
    a request that bears a token [jwt.verify] decodes to the owner of
    the property the conversation belongs to; every other request
    leaves the store and the outbox as they were. *)
Theorem route_stores_only_for_the_owner (env : Env)
    (verify : string -> JwtVerdict) (authorization : option string)
    (id : Id) (reqContent : BodyValue) (w : World) :
  let route := postMessageRoute env verify authorization id reqContent in
  after route w = w
  \/ exists rest token c p,
       authorization = Some ("Bearer " +:+ rest)
       /\ bearerToken rest = Some token
       /\ verify token = JwtDecoded (userId p)
       /\ Prisma.conversation_findUnique id w = (Ok (Some (c, Some p)), w).
Proof.
  cbn zeta. unfold postMessageRoute, after.
  destruct (authenticate verify authorization) as [u | r] eqn:Hauth.
  2: { left. reflexivity. }
  apply authenticate_next in Hauth as (rest & token & Hheader & Htoken & Hverify).
  destruct (postMessage_request_cases u id reqContent w)
    as [(text & c & p & -> & Hblank & Hfind & Howner) | Hdeclined].
  - right. exists rest, token, c, p. rewrite Howner. conjuncts; assumption.
  - left.
    destruct (postMessage_declines env u id reqContent w Hdeclined)
      as (r & Hrun & _).
    rewrite Hrun. reflexivity.
Qed.

(** ** The QR code link *)

Lemma append_assoc (a b c : string) : (a +:+ b) +:+ c = a +:+ (b +:+ c).
Proof.
  induction a as [| x a IH]; [reflexivity |].
  change (String x ((a +:+ b) +:+ c) = String x (a +:+ (b +:+ c))).
  f_equal. exact IH.
Qed.

Lemma encode_append (a b : string) :
  JsText.encodeURIComponent (a +:+ b)
  = JsText.encodeURIComponent a +:+ JsText.encodeURIComponent b.
Proof.
  induction a as [| c a IH]; [reflexivity |].
  change (String c a +:+ b) with (String c (a +:+ b)).
  cbn [JsText.encodeURIComponent]. rewrite IH, append_assoc. reflexivity.
Qed.

Lemma encode_unreserved (s : string) :
  JsText.every JsText.unreserved s = true -> JsText.encodeURIComponent s = s.
Proof.
  induction s as [| c s IH]; [reflexivity |].
  cbn [JsText.every JsText.encodeURIComponent].
  intros H. apply andb_true_iff in H as [Hc Hs].
  rewrite Hc, (IH Hs). reflexivity.
Qed.

Lemma every_append (f : ascii -> bool) (a b : string) :
  JsText.every f (a +:+ b) = JsText.every f a && JsText.every f b.
Proof.
  induction a as [| c a IH]; [reflexivity |].
  change (String c a +:+ b) with (String c (a +:+ b)).
  cbn [JsText.every]. rewrite IH, andb_assoc. reflexivity.
Qed.

Lemma percent_is_encoded (c : ascii) :
  JsText.every JsText.encoded (JsText.percent c) = true.
Proof. destruct c as [[] [] [] [] [] [] [] []]; reflexivity. Qed.

Lemma encode_is_encoded (s : string) :
  JsText.every JsText.encoded (JsText.encodeURIComponent s) = true.
Proof.
  induction s as [| c s IH]; [reflexivity |].
  cbn [JsText.encodeURIComponent]. rewrite every_append, IH, andb_true_r.
  destruct (JsText.unreserved c) eqn:Hc.
  - cbn [JsText.every]. unfold JsText.encoded. rewrite Hc. reflexivity.
  - apply percent_is_encoded.
Qed.

Lemma generateWhatsAppQRCode_run (pid : Id) (w : World) :
  run (generateWhatsAppQRCode pid) w =
  match List.find (fun p => Nat.eqb (p_id p) pid) (properties (db w)) with
  | None => (Thrown (JsError "Property not found"), w)
  | Some property =>
      (Ok (qrService +:+ JsText.encodeURIComponent
             ("https://wa.me/" +:+
                (if Js.startsWith (phoneNumber property) "+"
                 then Js.drop 1 (phoneNumber property)
                 else phoneNumber property))), w)
  end.
Proof.
  unfold generateWhatsAppQRCode. rewrite run_rethrow.
  cbn [bind await run]. unfold Prisma.property_findUnique, Prisma.read.
  destruct (List.find _ (properties (db w))); reflexivity.
Qed.

(** X13.  For a property whose phone number is a plus sign followed by
    characters that need no escape (digits, for one), the QR code link
    is the chart service's address followed by the encoded
    [https://wa.me/] link of the number without the plus; the route
    answers 200 with that link, and the store is not touched. *)
Theorem qr_link_of_a_plain_number (pid : Id) (w : World) (p : Property)
    (number : string) :
  Prisma.property_findUnique pid w = (Ok (Some p), w) ->
  phoneNumber p = "+" +:+ number ->
  JsText.every JsText.unreserved number = true ->
  let link := qrService +:+ "https%3A%2F%2Fwa.me%2F" +:+ number in
  run (generateWhatsAppQRCode pid) w = (Ok link, w)
  /\ run (getWhatsappQr pid) w = (Ok (200, QrLink link), w).
Proof.
  intros Hfind Hphone Hplain. cbn zeta.
  unfold Prisma.property_findUnique, Prisma.read in Hfind.
  injection Hfind as Hfind.
  assert (Hrun : run (generateWhatsAppQRCode pid) w
                 = (Ok (qrService +:+ "https%3A%2F%2Fwa.me%2F" +:+ number), w)).
  { rewrite generateWhatsAppQRCode_run, Hfind, Hphone.
    unfold Js.startsWith. rewrite prefix_of_append.
    change (Js.drop 1 ("+" +:+ number)) with number.
    rewrite encode_append, (encode_unreserved number Hplain). reflexivity. }
  split; [exact Hrun |].
  unfold getWhatsappQr. rewrite run_try_catch, run_bind, Hrun. reflexivity.
Qed.

Lemma qr_link_of_a_plain_number_witness :
  run (getWhatsappQr 1) (Scenario.world 0 100)
  = (Ok (200, QrLink "https://chart.googleapis.com/chart?cht=qr&chs=300x300&chl=https%3A%2F%2Fwa.me%2F15550100"),
     Scenario.world 0 100).
Proof.
  apply (qr_link_of_a_plain_number 1 (Scenario.world 0 100) Scenario.villa
           "15550100" eq_refl eq_refl eq_refl).
Defined.

(** X14.  For every property id and store the QR route answers without
    touching the store: 500 with "Property not found" when no property
    has the id, and otherwise 200 with a link that is the chart
    service's address followed only by unreserved characters and
    percent escapes, whatever the property's phone number contains. *)
Theorem qr_route_answers_with_a_safe_link (pid : Id) (w : World) :
  (Prisma.property_findUnique pid w = (Ok None, w)
   /\ run (getWhatsappQr pid) w
      = (Ok (500, QrFailed "Property not found"), w))
  \/ (exists p component,
        Prisma.property_findUnique pid w = (Ok (Some p), w)
        /\ run (getWhatsappQr pid) w
           = (Ok (200, QrLink (qrService +:+ component)), w)
        /\ JsText.every JsText.encoded component = true).
Proof.
  unfold getWhatsappQr, Prisma.property_findUnique, Prisma.read.
  rewrite run_try_catch, run_bind, generateWhatsAppQRCode_run.
  destruct (List.find _ (properties (db w))) as [p |].
  - right. eexists p, _. conjuncts; [reflexivity | reflexivity |].
    apply encode_is_encoded.
  - left. split; reflexivity.
Qed.

Example qr_link_escapes_what_it_must :
  run (getWhatsappQr 2) Cases.twoListings
  = (Ok (200, QrLink "https://chart.googleapis.com/chart?cht=qr&chs=300x300&chl=https%3A%2F%2Fwa.me%2F1%205550101"),
     Cases.twoListings).
Proof. reflexivity. Qed.

(** ** Indexing the property details *)

Lemma chunkOf_in (label : string) (field : option string) (x : string) :
  In x (chunkOf label field) <->
  exists v, field = Some v /\ v <> "" /\ x = label +:+ v.
Proof.
  unfold chunkOf. destruct field as [v |].
  - destruct (String.eqb_spec v "") as [-> | Hv]; cbn [In].
    + split; [tauto |]. intros (v & H & Hne & _). injection H as <-.
      contradiction.
    + split.
      * intros [<- | []]. exists v. conjuncts; auto.
      * intros (v' & H & _ & ->). injection H as <-. left. reflexivity.
  - cbn [In]. split; [tauto |]. intros (v & H & _). discriminate.
Qed.

Lemma faqChunks_in (entries : option (list (string * string))) (x : string) :
  In x (faqChunks entries) <->
  exists l q a,
    entries = Some l /\ In (q, a) l /\ x = "FAQ - " +:+ q +:+ ": " +:+ a.
Proof.
  unfold faqChunks. destruct entries as [l |].
  - rewrite in_map_iff. split.
    + intros ([q a] & <- & Hin). exists l, q, a. conjuncts; auto.
    + intros (l' & q & a & H & Hin & ->). injection H as <-.
      exists (q, a). split; [reflexivity | exact Hin].
  - cbn [In]. split; [tauto |]. intros (l & q & a & H & _). discriminate.
Qed.

Lemma chunkOf_length (label : string) (field : option string) :
  length (chunkOf label field) = if Js.truthy field then 1%nat else 0%nat.
Proof.
  unfold chunkOf, Js.truthy. destruct field as [v |]; [| reflexivity].
  destruct (String.eqb v ""); reflexivity.
Qed.

Ltac other_label H :=
  let v := fresh "v" in
  let Hf := fresh in let Hne := fresh in let Heq := fresh in
  destruct H as (v & Hf & Hne & Heq); exfalso; discriminate Heq.

Ltac same_label H :=
  let v := fresh "v" in
  let Hf := fresh in let Hne := fresh in let Heq := fresh in
  destruct H as (v & Hf & Hne & Heq);
  apply append_inj_r in Heq; subst v; split; assumption.

(** X15.  [generateEmbeddings] builds one chunk for every optional text
    field of the details that is present and non-empty, under the
    field's own label, and one chunk for every FAQ entry: a labeled
    chunk is in the list exactly when its field is present with that
    non-empty value, each FAQ entry is in the list, and the list has as
    many chunks as there are such fields and entries. *)
Theorem chunks_cover_every_field (d : PropertyDetails) :
  (forall f v,
     In (chunkLabel f +:+ v) (detailChunks d)
     <-> fieldValue f d = Some v /\ v <> "")
  /\ (forall entries q a,
        faqs d = Some entries -> In (q, a) entries ->
        In ("FAQ - " +:+ q +:+ ": " +:+ a) (detailChunks d))
  /\ length (detailChunks d)
     = (length (List.filter (fun f => Js.truthy (fieldValue f d))
                  [CheckInTime; CheckOutTime; WifiPassword; HouseRules;
                   Location; NearbyAttractions; EmergencyContacts;
                   CustomNotes])
        + length (faqChunks (faqs d)))%nat.
Proof.
  conjuncts.
  - intros f v. unfold detailChunks.
    rewrite !in_app_iff, !chunkOf_in, faqChunks_in. split.
    + intros H.
      destruct f; cbn [chunkLabel fieldValue] in *;
        destruct H as [H | [H | [H | [H | [H | [H | [H | [H | H]]]]]]]];
        first [ same_label H
              | other_label H
              | destruct H as (l & q & a & _ & _ & Heq); exfalso;
                discriminate Heq ].
    + intros [Hv Hne].
      destruct f; cbn [chunkLabel fieldValue] in *;
        [ left
        | right; left
        | do 2 right; left
        | do 3 right; left
        | do 4 right; left
        | do 5 right; left
        | do 6 right; left
        | do 7 right; left ];
        exists v; conjuncts; auto.
  - intros entries q a Hfaqs Hin. unfold detailChunks.
    rewrite !in_app_iff, faqChunks_in.
    do 8 right. exists entries, q, a. conjuncts; auto.
  - unfold detailChunks. rewrite !List.length_app, !chunkOf_length.
    cbn [List.filter fieldValue].
    repeat match goal with
           | |- context [Js.truthy ?x] => destruct (Js.truthy x)
           end; reflexivity.
Qed.







(** Re-indexing with the provider down loses the property's index and
    reports nothing; with the provider up the index is the new list. *)
Example reindexing_cases :
  indexedFor 1 (snd (generateEmbeddings Scenario.noEmbeddings 1 Cases.details
                                        Cases.indexed)) = []
  /\ indexedFor 1 (snd (generateEmbeddings Scenario.healthy 1 Cases.details
                                           Cases.indexed))
     = ["Check-in time: 3pm"; "House rules: No parties"; "FAQ - Pets?: No"]
  /\ indexedFor 1 (snd (generateEmbeddings Cases.oneEmbedding 1 Cases.details
                                           Cases.indexed))
     = ["Check-in time: 3pm"]
  /\ indexedFor 2 (snd (generateEmbeddings Scenario.noEmbeddings 1 Cases.details
                                           Cases.indexed))
     = ["House rules: quiet"].
Proof. conjuncts; reflexivity. Qed.

(** ** Retrieval *)

Lemma formatResults_shape (env : Env) (data : list MatchRow)
    (docs : list SimilarDoc) :
  formatResults env data = Ok docs ->
  List.map sd_id docs = List.map mr_id data
  /\ List.map sd_content docs = List.map mr_content data
  /\ List.map sd_similarity docs = List.map mr_similarity data
  /\ List.map (fun d => Some (sd_metadata d)) docs
     = List.map (fun r => JSON_parse env (mr_metadata r)) data.
Proof.
  revert docs. induction data as [| item rest IH]; intros docs; cbn.
  - intros H. injection H as <-. conjuncts; reflexivity.
  - destruct (JSON_parse env (mr_metadata item)) as [meta |]; [| discriminate].
    destruct (formatResults env rest) as [docs' | e]; [| discriminate].
    intros H. injection H as <-.
    destruct (IH docs' eq_refl) as (H1 & H2 & H3 & H4).
    cbn. rewrite H1, H2, H3, H4. conjuncts; reflexivity.
Qed.

Lemma formatResults_bad_metadata (env : Env) (data : list MatchRow)
    (row : MatchRow) :
  In row data ->
  JSON_parse env (mr_metadata row) = None ->
  formatResults env data = Thrown (SyntaxError "Unexpected token in JSON").
Proof.
  induction data as [| item rest IH]; [contradiction |].
  intros [-> | Hin] Hbad; cbn.
  - rewrite Hbad. reflexivity.
  - destruct (JSON_parse env (mr_metadata item)); [| reflexivity].
    rewrite (IH Hin Hbad). reflexivity.
Qed.

(** X17.  When [searchSimilar] resolves, its result is the answer of
    the store's [match_embeddings] procedure to the request made with
    the query's embedding and the caller's threshold, limit and
    property id: one entry per row, in the store's order, with the
    row's id, content and similarity and its parsed metadata; the
    store and the outbox are not touched. *)
Theorem searchSimilar_returns_the_store_rows (env : Env) (query : string)
    (pid : Id) (limit : nat) (threshold : Q) (w : World)
    (docs : list SimilarDoc) :
  result (searchSimilar env query pid limit threshold) w = Ok docs ->
  after (searchSimilar env query pid limit threshold) w = w
  /\ exists v data,
       openai_createEmbedding env query = Some v
       /\ supabase_match_embeddings env v threshold limit pid = RpcData data
       /\ List.map sd_id docs = List.map mr_id data
       /\ List.map sd_content docs = List.map mr_content data
       /\ List.map sd_similarity docs = List.map mr_similarity data
       /\ List.map (fun d => Some (sd_metadata d)) docs
          = List.map (fun r => JSON_parse env (mr_metadata r)) data.
Proof.
  unfold result, after. rewrite searchSimilar_run. cbn [fst snd].
  unfold searchOutcome. intros H. split; [reflexivity |].
  destruct (openai_createEmbedding env query) as [v |]; [| discriminate].
  destruct (supabase_match_embeddings env v threshold limit pid)
    as [message | data] eqn:Hrpc; [discriminate |].
  exists v, data. split; [reflexivity |]. split; [exact Hrpc |].
  apply (formatResults_shape env data docs H).
Qed.

Lemma searchSimilar_returns_the_store_rows_witness :
  after (searchSimilar Scenario.healthy "What time is check-in?" 1 3
                       (6 # 10)%Q) (Scenario.world 0 100)
  = Scenario.world 0 100
  /\ exists v data,
       openai_createEmbedding Scenario.healthy "What time is check-in?" = Some v
       /\ supabase_match_embeddings Scenario.healthy v (6 # 10)%Q 3 1
          = RpcData data
       /\ List.map mr_content data = ["Check-in time: 3pm"].
Proof.
  destruct (searchSimilar_returns_the_store_rows Scenario.healthy
              "What time is check-in?" 1 3 (6 # 10)%Q (Scenario.world 0 100)
              [mkSimilarDoc 40 "Check-in time: 3pm" (JObj []) (9 # 10)]
              eq_refl)
    as (Hafter & v & data & Hemb & Hrpc & _ & Hcontent & _).
  split; [exact Hafter |].
  exists v, data. conjuncts; [exact Hemb | exact Hrpc |].
  rewrite <- Hcontent. reflexivity.
Defined.

(** X18.  One retrieved row whose metadata is not valid JSON makes the
    whole retrieval reject with a SyntaxError, and the guest's reply is
    then the apology, whatever the other rows hold and whatever the
    completion provider would answer. *)
Theorem unparseable_metadata_costs_the_reply (env : Env) (query : string)
    (pid : Id) (v : Embedding) (data : list MatchRow) (row : MatchRow) :
  openai_createEmbedding env query = Some v ->
  supabase_match_embeddings env v (6 # 10)%Q 3 pid = RpcData data ->
  In row data ->
  JSON_parse env (mr_metadata row) = None ->
  forall (cid : Id) (w : World),
    run (searchSimilar env query pid 3 (6 # 10)%Q) w
    = (Thrown (SyntaxError "Unexpected token in JSON"), w)
    /\ run (processMessage env pid cid query) w = (Ok apology, w).
Proof.
  intros Hemb Hrpc Hin Hbad cid w.
  assert (Hout : searchOutcome env query pid 3 (6 # 10)%Q
                 = Thrown (SyntaxError "Unexpected token in JSON")).
  { unfold searchOutcome. rewrite Hemb, Hrpc.
    apply (formatResults_bad_metadata env data row Hin Hbad). }
  split.
  - rewrite searchSimilar_run, Hout. reflexivity.
  - rewrite processMessage_run, (replyOf_search_failed env _ _ _ _ _ Hout).
    reflexivity.
Qed.

Lemma unparseable_metadata_costs_the_reply_witness :
  run (processMessage Cases.badMetadata 1 50 "What time is check-in?")
      (Scenario.chatting 0 100)
  = (Ok apology, Scenario.chatting 0 100).
Proof.
  apply (unparseable_metadata_costs_the_reply Cases.badMetadata
           "What time is check-in?" 1 [(1 # 2)%Q] [Scenario.chunk]
           Scenario.chunk eq_refl eq_refl ltac:(left; reflexivity) eq_refl
           50 (Scenario.chatting 0 100)).
Defined.

(** X19.  [findSimilarContent] never rejects and writes nothing: it
    resolves to the rows of the raw query when both the embedding and
    the query succeed, and to the empty array when either fails. *)
Theorem findSimilarContent_never_rejects (env : Env)
    (queryRaw : Embedding -> Id -> nat -> option (list MatchRow))
    (pid : Id) (query : string) (limit : nat) (w : World) :
  run (findSimilarContent env queryRaw pid query limit) w =
  (Ok match openai_createEmbedding env query with
      | Some v =>
          match queryRaw v pid limit with
          | Some found => found
          | None => []
          end
      | None => []
      end, w).
Proof.
  unfold findSimilarContent.
  rewrite run_try_catch, run_bind, generateEmbedding_run.
  destruct (openai_createEmbedding env query) as [v |]; [| reflexivity].
  cbn [bind await run].
  destruct (queryRaw v pid limit); reflexivity.
Qed.

(** ** Subscription events and the quota *)

Lemma setPlan_counts (id : Id) (tier : string) (limit : Z) (ends : option nat)
    (a : Accounts) (i : Id) :
  messageCount <$> (acc_users (snd (setPlan id tier limit ends a)) !! i)
  = messageCount <$> (acc_users a !! i).
Proof.
  unfold setPlan. destruct (acc_users a !! id) as [u |] eqn:Hu;
    [| reflexivity].
  cbn [snd acc_users].
  destruct (decide (id = i)) as [<- | Hne].
  - rewrite lookup_insert_eq, Hu. reflexivity.
  - rewrite lookup_insert_ne by exact Hne. reflexivity.
Qed.

(** X20.  No Stripe event changes usage: whatever the event, the plan
    ids and the customer index, every account has the same
    [messageCount] after [handleWebhookEvent] as before, and no account
    is created or removed; the counter is never reset. *)
Theorem billing_never_changes_usage (ids : PlanIds)
    (byCustomer : string -> option Id) (event : StripeEvent) (a : Accounts)
    (i : Id) :
  messageCount <$>
    (acc_users (snd (handleWebhookEvent ids byCustomer event a)) !! i)
  = messageCount <$> (acc_users a !! i).
Proof.
  destruct event as [s | s | s | c | c | ty]; cbn [handleWebhookEvent];
    try reflexivity;
    unfold handleSubscriptionChange, handleSubscriptionCancelled;
    destruct (userOfCustomer byCustomer (customer s) a) as [u |];
    try reflexivity;
    try destruct (tierOf ids (priceId s)) as [tier limit];
    apply setPlan_counts.
Qed.




(** X22.  A deleted subscription puts a known customer back on
    FREE/100 with the usage kept, so an account that has already used
    100 messages or more is over its limit at once: the next inbound
    event for one of its properties is turned down by the quota gate
    with nothing stored. *)
Theorem cancellation_blocks_a_spent_account (ids : PlanIds)
    (byCustomer : string -> option Id) (s : Subscription) (env : Env)
    (md : MessageData) (w : World) (plansOf : gmap nat Plan)
    (p : Property) (u : User) :
  resolve md w = Some p ->
  users (db w) !! userId p = Some u ->
  u_id u = userId p ->
  byCustomer (customer s) = Some (userId p) ->
  (100 <= messageCount u)%Z ->
  let a' := snd (handleWebhookEvent ids byCustomer (SubscriptionDeleted s)
                   (mkAccounts (users (db w)) plansOf)) in
  let pim := processIncomingMessage env md in
  acc_users a' !! userId p = Some (mkUser (userId p) (messageCount u) 100)
  /\ db (after pim (billed a' w)) = db (billed a' w)
  /\ (accepted env (outgoing env (guestOf md) limitNotice) ->
      result pim (billed a' w) = Ok (Failure "Message limit reached")).
Proof.
  intros Hp Hu Hid Hcustomer Hspent. cbn zeta.
  cbn [handleWebhookEvent]. unfold handleSubscriptionCancelled, userOfCustomer.
  rewrite Hcustomer. cbn [acc_users]. rewrite Hu.
  unfold setPlan. rewrite Hid. cbn [acc_users]. rewrite Hu.
  cbn [snd acc_users]. rewrite Hid.
  set (a' := mkAccounts _ _).
  assert (Hu' : users (db (billed a' w)) !! userId p
                = Some (mkUser (userId p) (messageCount u) 100)).
  { unfold billed, a'. cbn [with_db db users acc_users].
    apply lookup_insert_eq. }
  assert (Hp' : resolve md (billed a' w) = Some p) by exact Hp.
  pose proof (pim_limit_reached env md (billed a' w) p _ Hp' Hu'
                ltac:(cbn [messageCount messageLimit]; lia)) as Hrun.
  conjuncts.
  - unfold a'. cbn [acc_users]. apply lookup_insert_eq.
  - unfold after. rewrite Hrun.
    destruct (twilio_messages_create env _ _ _); reflexivity.
  - intros [sid Hsend]. unfold outgoing in Hsend.
    cbn [sms_from sms_to sms_body] in Hsend.
    unfold result. rewrite Hrun, Hsend. reflexivity.
Qed.

Lemma cancellation_blocks_a_spent_account_witness :
  let s := mkSubscription "cus_7" "canceled" "price_pro" 17 in
  let a' := snd (handleWebhookEvent Cases.plans Cases.byCustomer
                   (SubscriptionDeleted s)
                   (mkAccounts (users (db (Scenario.world 150 2000))) ∅)) in
  let pim := processIncomingMessage Scenario.healthy Scenario.hello in
  acc_users a' !! 7%nat = Some (Scenario.host 150 100)
  /\ result pim (billed a' (Scenario.world 150 2000))
     = Ok (Failure "Message limit reached").
Proof.
  cbn zeta.
  destruct (cancellation_blocks_a_spent_account Cases.plans Cases.byCustomer
              (mkSubscription "cus_7" "canceled" "price_pro" 17)
              Scenario.healthy Scenario.hello (Scenario.world 150 2000) ∅
              Scenario.villa (Scenario.host 150 2000)
              eq_refl eq_refl eq_refl eq_refl ltac:(simpl; lia))
    as (Husers & _ & Hres).
  split; [exact Husers |].
  apply Hres. eexists; reflexivity.
Defined.
